(** * MikroTik BLE tag: the advertisement payload decoder

    A shallow embedding of [parse_mikrotik_data] and of the helpers it
    defines (custom_components/mikrotik_ble_tag/sensor.py), of the entities
    that use it ([async_setup_entry], [__init__],
    [_process_advertisement_data] and the scanner's [detection_callback]) and
    of the user step of the config flow (config_flow.py), followed by their
    properties.  The scan loop and its start and cancellation are left out.

    Python values are modelled as follows.
    - [int] is [Z]; [&], [|], [<<], [>>], [//] and [%] are [Z.land], [Z.lor],
      [Z.shiftl], [Z.shiftr], [Z.div] and [Z.modulo], which agree with
      Python on negative numbers as well (two's complement, floor division).
    - [float] is IEEE 754 binary64, the primitive [float] of Rocq; [/], [<],
      [>] and [math.sqrt] are the primitive operations.
    - [bytes] is [list byte].
    - the returned [dict] is a [gmap string pyval].
    - [_LOGGER.error] appends to a list of messages returned next to the
      result; the [_LOGGER.debug] calls have no effect on the result and are
      left out.
    - [str] is [string], for ASCII strings.
    - [self._state] is threaded through the callbacks, and each
      [async_write_ha_state] is recorded with the state it writes. *)

From Stdlib Require Import ZArith List Bool Lia QArith.
From Stdlib Require Import Strings.Ascii Strings.String Strings.Byte.
From Stdlib Require Import Floats.PrimFloat Floats.FloatOps Floats.SpecFloat.
From Stdlib Require Import Floats.FloatAxioms.
From Stdlib Require Import Numbers.Cyclic.Int63.Uint63.
From stdpp Require Import base gmap strings pretty.
Import ListNotations.

Local Open Scope string_scope.
Local Open Scope Z_scope.

(** ** Python numbers *)

Module PyNum.

(** [float(n)] for an [int] below 2^63 in magnitude: the conversion of
    the magnitude is correctly rounded, the sign is restored after. *)
Definition float_of_Z (n : Z) : float :=
  if n <? 0 then PrimFloat.opp (PrimFloat.of_uint63 (Uint63.of_Z (- n)))
  else PrimFloat.of_uint63 (Uint63.of_Z n).

(** The rational a finite binary64 number stands for. *)
Definition SF2Q (x : spec_float) : option Q :=
  match x with
  | S754_zero _ => Some 0%Q
  | S754_finite sg m e =>
      Some (((if sg then Z.neg m else Z.pos m) # 1) * Qpower 2 e)%Q
  | S754_infinity _ | S754_nan => None
  end.

Definition F2Q (x : float) : option Q := SF2Q (Prim2SF x).

(** [x] is finite and stands for exactly [q]. *)
Definition represents (x : float) (q : Q) : bool :=
  match F2Q x with
  | Some r => Qeq_bool r q
  | None => false
  end.

(** [x ** 2] on floats.  On the values the decoder squares (multiples of
    1/256 of magnitude at most 16) the square is a binary64 number, so
    [pow] and the product agree. *)
Definition float_sq (x : float) : float := PrimFloat.mul x x.

End PyNum.
Import PyNum.

(** ** The values of the returned dict *)

Inductive pyval : Type :=
| PyNone
| PyBool (b : bool)
| PyInt (n : Z)
| PyFloat (x : float)
| PyStr (s : string).

Definition py_of_float (o : option float) : pyval :=
  match o with Some x => PyFloat x | None => PyNone end.

Definition py_of_int (o : option Z) : pyval :=
  match o with Some n => PyInt n | None => PyNone end.

(** ** struct.unpack('<BBHhhhhIBB', data) *)

Module Struct.

Definition u8 (b : byte) : Z := Z.of_N (Byte.to_N b).

(** 'H': unsigned 16 bits, little-endian. *)
Definition u16le (b0 b1 : byte) : Z := u8 b0 + 256 * u8 b1.

(** 'h': signed 16 bits, little-endian. *)
Definition i16le (b0 b1 : byte) : Z :=
  let w := u16le b0 b1 in
  if 0x8000 <=? w then w - 0x10000 else w.

(** 'I': unsigned 32 bits, little-endian. *)
Definition u32le (b0 b1 b2 b3 : byte) : Z :=
  u8 b0 + 256 * u8 b1 + 65536 * u8 b2 + 16777216 * u8 b3.

Record unpacked : Type := Unpacked {
  payload_version : Z;
  encryption_flag : Z;
  salt : Z;
  acc_x_raw : Z;
  acc_y_raw : Z;
  acc_z_raw : Z;
  temperature_raw : Z;
  uptime : Z;
  flag : Z;
  battery : Z
}.

(** The format takes 18 bytes; any other buffer raises [struct.error]. *)
Definition unpack (data : list byte) : string + unpacked :=
  match data with
  | [v; e; s0; s1; x0; x1; y0; y1; z0; z1; t0; t1; u0; u1; u2; u3; f; b] =>
      inr {| payload_version := u8 v;
             encryption_flag := u8 e;
             salt := u16le s0 s1;
             acc_x_raw := i16le x0 x1;
             acc_y_raw := i16le y0 y1;
             acc_z_raw := i16le z0 z1;
             temperature_raw := i16le t0 t1;
             uptime := u32le u0 u1 u2 u3;
             flag := u8 f;
             battery := u8 b |}
  | _ => inl "unpack requires a buffer of 18 bytes"
  end.

End Struct.
Import Struct.

(** ** Flag bit masks *)

Definition FLAG_REED_SWITCH : Z := 0x01.
Definition FLAG_ACCEL_TILT : Z := 0x02.
Definition FLAG_ACCEL_FREE_FALL : Z := 0x04.
Definition FLAG_IMPACT_X : Z := 0x08.
Definition FLAG_IMPACT_Y : Z := 0x10.
Definition FLAG_IMPACT_Z : Z := 0x20.

(** [bool(n)] for an [int]. *)
Definition py_bool (n : Z) : bool := negb (n =? 0).

(** ** The conversion helpers of parse_mikrotik_data *)

Definition swap_octets (value : Z) : Z :=
  Z.lor (Z.shiftl (Z.land value 0xFF) 8) (Z.land (Z.shiftr value 8) 0xFF).

Definition convert_acceleration (value : Z) : float :=
  let swapped_value := swap_octets value in
  let acceleration := PrimFloat.div (float_of_Z swapped_value) 256%float in
  if PrimFloat.ltb acceleration (-16)%float || PrimFloat.ltb 16%float acceleration
  then 0%float
  else acceleration.

Definition convert_temperature (value : Z) : option float :=
  let swapped_value := swap_octets value in
  let swapped_value :=
    if 0x7FFF <? swapped_value then swapped_value - 0x10000 else swapped_value in
  let temperature_celsius := PrimFloat.div (float_of_Z swapped_value) 256%float in
  if PrimFloat.ltb temperature_celsius (-50)%float
     || PrimFloat.ltb 100%float temperature_celsius
  then None
  else Some temperature_celsius.

Definition convert_battery (value : Z) : option Z :=
  if (value <? 0) || (100 <? value) then None else Some value.

(** The four numbers [convert_uptime] formats, in the order it computes
    them: the running remainder [uptime_seconds] is updated in place. *)
Definition uptime_parts (uptime_seconds : Z) : Z * Z * Z * Z :=
  let days := uptime_seconds / (24 * 3600) in
  let uptime_seconds := uptime_seconds mod (24 * 3600) in
  let hours := uptime_seconds / 3600 in
  let uptime_seconds := uptime_seconds mod 3600 in
  let minutes := uptime_seconds / 60 in
  let seconds := uptime_seconds mod 60 in
  (days, hours, minutes, seconds).

Definition convert_uptime (uptime_seconds : Z) : string :=
  let '(days, hours, minutes, seconds) := uptime_parts uptime_seconds in
  pretty days +:+ "d " +:+ pretty hours +:+ "h " +:+ pretty minutes +:+ "m "
    +:+ pretty seconds +:+ "s".

Definition calculate_total_acceleration (acc_x acc_y acc_z : option float)
  : option float :=
  match acc_x, acc_y, acc_z with
  | Some x, Some y, Some z =>
      Some (PrimFloat.sqrt
              (PrimFloat.add (PrimFloat.add (float_sq x) (float_sq y)) (float_sq z)))
  | _, _, _ => None
  end.

(** ** parse_mikrotik_data *)

(** The dict built from the unpacked fields. *)
Definition attributes (u : unpacked) : gmap string pyval :=
  let acc_x_converted := convert_acceleration (acc_x_raw u) in
  let acc_y_converted := convert_acceleration (acc_y_raw u) in
  let acc_z_converted := convert_acceleration (acc_z_raw u) in
  let temperature_converted := convert_temperature (temperature_raw u) in
  let battery_converted := convert_battery (battery u) in
  let uptime_converted := convert_uptime (uptime u) in
  let flag_reed_switch := py_bool (Z.land (flag u) FLAG_REED_SWITCH) in
  let flag_accel_tilt := py_bool (Z.land (flag u) FLAG_ACCEL_TILT) in
  let flag_accel_free_fall := py_bool (Z.land (flag u) FLAG_ACCEL_FREE_FALL) in
  let flag_impact_x := py_bool (Z.land (flag u) FLAG_IMPACT_X) in
  let flag_impact_y := py_bool (Z.land (flag u) FLAG_IMPACT_Y) in
  let flag_impact_z := py_bool (Z.land (flag u) FLAG_IMPACT_Z) in
  <["acceleration_x" := PyFloat acc_x_converted]>
  (<["acceleration_y" := PyFloat acc_y_converted]>
  (<["acceleration_z" := PyFloat acc_z_converted]>
  (<["total_acceleration" :=
       py_of_float (calculate_total_acceleration
                      (Some acc_x_converted) (Some acc_y_converted)
                      (Some acc_z_converted))]>
  (<["temperature" := py_of_float temperature_converted]>
  (<["uptime" := PyStr uptime_converted]>
  (<["flag_reed_switch" := PyBool flag_reed_switch]>
  (<["flag_accel_tilt" := PyBool flag_accel_tilt]>
  (<["flag_accel_free_fall" := PyBool flag_accel_free_fall]>
  (<["flag_impact_x" := PyBool flag_impact_x]>
  (<["flag_impact_y" := PyBool flag_impact_y]>
  (<["flag_impact_z" := PyBool flag_impact_z]>
  (<["battery" := py_of_int battery_converted]> ∅)))))))))))).

(** What a call leaves behind: the returned dict and the messages logged at
    error level. *)
Record outcome : Type := Outcome {
  returned : gmap string pyval;
  errors : list string
}.

Definition parse_mikrotik_data (data : list byte) : outcome :=
  if negb (Z.of_nat (length data) =? 18) then
    {| returned := ∅;
       errors := ["Invalid data length: expected 18 bytes, got "
                    +:+ pretty (Z.of_nat (length data)) +:+ " bytes"] |}
  else
    match unpack data with
    | inr u => {| returned := attributes u; errors := [] |}
    | inl e =>
        {| returned := ∅;
           errors := ["Failed to parse MikroTik BLE Tag data: " +:+ e] |}
    end.

(** ** Python strings

    A [str] is modelled by a [string] of ASCII characters; [upper], [lower],
    [isalnum], [title] and [len] are the Python methods on such strings.
    Characters above 127 are outside the model: the statements about these
    methods are made for ASCII strings only. *)

Module PyStr.

Definition code (c : ascii) : N := N_of_ascii c.

Definition char_is_ascii (c : ascii) : bool := (code c <? 128)%N.
Definition char_isupper (c : ascii) : bool := ((65 <=? code c) && (code c <=? 90))%N.
Definition char_islower (c : ascii) : bool := ((97 <=? code c) && (code c <=? 122))%N.
Definition char_isdigit (c : ascii) : bool := ((48 <=? code c) && (code c <=? 57))%N.
Definition char_isalpha (c : ascii) : bool := char_isupper c || char_islower c.
Definition char_isalnum (c : ascii) : bool := char_isalpha c || char_isdigit c.

Definition char_upper (c : ascii) : ascii :=
  if char_islower c then ascii_of_N (code c - 32) else c.
Definition char_lower (c : ascii) : ascii :=
  if char_isupper c then ascii_of_N (code c + 32) else c.

Fixpoint all_chars (p : ascii -> bool) (s : string) : bool :=
  match s with
  | EmptyString => true
  | String c r => p c && all_chars p r
  end.

Fixpoint map_chars (f : ascii -> ascii) (s : string) : string :=
  match s with
  | EmptyString => EmptyString
  | String c r => String (f c) (map_chars f r)
  end.

Definition is_ascii (s : string) : bool := all_chars char_is_ascii s.

(** [s.upper()] and [s.lower()]. *)
Definition upper (s : string) : string := map_chars char_upper s.
Definition lower (s : string) : string := map_chars char_lower s.

(** [s.isalnum()]: false on the empty string. *)
Definition isalnum (s : string) : bool :=
  match s with
  | EmptyString => false
  | _ => all_chars char_isalnum s
  end.

(** [s.replace(old, new)] for a one-character [old]. *)
Fixpoint replace (old : ascii) (new : string) (s : string) : string :=
  match s with
  | EmptyString => EmptyString
  | String c r =>
      if Ascii.eqb c old then new +:+ replace old new r
      else String c (replace old new r)
  end.

(** [s.title()]: a letter that follows a letter is lowered, any other
    letter is raised. *)
Fixpoint title_from (previous_is_cased : bool) (s : string) : string :=
  match s with
  | EmptyString => EmptyString
  | String c r =>
      String (if previous_is_cased then char_lower c else char_upper c)
             (title_from (char_isalpha c) r)
  end.

Definition title (s : string) : string := title_from false s.

End PyStr.

(** ** The sensor entity *)

(** The device classes and units the entities are created with. *)
Inductive device_class : Type := TEMPERATURE | BATTERY | SIGNAL_STRENGTH.

Inductive unit_of_measurement : Type :=
| CELSIUS
| PERCENTAGE
| SIGNAL_STRENGTH_DECIBELS_MILLIWATT
| METRES_PER_SECOND_SQUARED.

Record DeviceInfo : Type := {
  identifiers : list (string * string);
  device_name : string;
  manufacturer : string;
  model : string
}.

(** The fields [__init__] sets; the scanner and its task are run-time
    handles and carry no data. *)
Record MikroTikBLETagSensor : Type := {
  _name : string;
  _mac : string;
  _attribute : string;
  _device_class : option device_class;
  _unit_of_measurement : option unit_of_measurement;
  _state : pyval;
  _device_info : DeviceInfo;
  _unique_id : string
}.

Definition __init__ (name mac attribute : string) (dc : option device_class)
    (unit : option unit_of_measurement) (device_info : DeviceInfo)
  : MikroTikBLETagSensor :=
  {| _name := name +:+ " " +:+ PyStr.title (PyStr.replace "_" " " attribute);
     _mac := mac;
     _attribute := attribute;
     _device_class := dc;
     _unit_of_measurement := unit;
     _state := PyNone;
     _device_info := device_info;
     _unique_id := mac +:+ "_" +:+ attribute |}.

Definition with_state (self : MikroTikBLETagSensor) (state : pyval)
  : MikroTikBLETagSensor :=
  {| _name := _name self;
     _mac := _mac self;
     _attribute := _attribute self;
     _device_class := _device_class self;
     _unit_of_measurement := _unit_of_measurement self;
     _state := state;
     _device_info := _device_info self;
     _unique_id := _unique_id self |}.

(** The entities [async_setup_entry] hands to Home Assistant for a config
    entry with the given name and MAC; [DOMAIN] is the constant of the
    integration's [const] module. *)
Definition async_setup_entry (DOMAIN name mac : string)
  : list MikroTikBLETagSensor :=
  let device_info :=
    {| identifiers := [(DOMAIN, mac)];
       device_name := name;
       manufacturer := "MikroTik";
       model := "BLE Tag" |} in
  [ __init__ name mac "temperature" (Some TEMPERATURE) (Some CELSIUS) device_info;
    __init__ name mac "battery" (Some BATTERY) (Some PERCENTAGE) device_info;
    __init__ name mac "rssi" (Some SIGNAL_STRENGTH)
      (Some SIGNAL_STRENGTH_DECIBELS_MILLIWATT) device_info;
    __init__ name mac "acceleration_x" None (Some METRES_PER_SECOND_SQUARED) device_info;
    __init__ name mac "acceleration_y" None (Some METRES_PER_SECOND_SQUARED) device_info;
    __init__ name mac "acceleration_z" None (Some METRES_PER_SECOND_SQUARED) device_info;
    __init__ name mac "total_acceleration" None (Some METRES_PER_SECOND_SQUARED)
      device_info;
    __init__ name mac "uptime" None None device_info;
    __init__ name mac "flag_reed_switch" None None device_info;
    __init__ name mac "flag_accel_tilt" None None device_info;
    __init__ name mac "flag_accel_free_fall" None None device_info;
    __init__ name mac "flag_impact_x" None None device_info;
    __init__ name mac "flag_impact_y" None None device_info;
    __init__ name mac "flag_impact_z" None None device_info ].

(** ** Advertisements *)

(** [manufacturer_data] is a dict from manufacturer identifier to bytes,
    kept as the list of its items in iteration order. *)
Record AdvertisementData : Type := {
  manufacturer_data : list (Z * list byte);
  rssi : Z
}.

Record BLEDevice : Type := { address : string }.

(** What a callback leaves behind: the entity, the states written to Home
    Assistant and the messages logged at error level. *)
Record handled : Type := Handled {
  entity : MikroTikBLETagSensor;
  written : list pyval;
  logged : list string
}.

(** [attributes.get(key)]. *)
Definition dict_get (d : gmap string pyval) (key : string) : pyval :=
  match d !! key with Some v => v | None => PyNone end.

(** The loop of [_process_advertisement_data] over the items of
    [manufacturer_data]: the first item of MikroTik (0x094F) is parsed, the
    state set and written, and the loop left. *)
Fixpoint process_items (self : MikroTikBLETagSensor) (rssi : Z)
    (items : list (Z * list byte)) : handled :=
  match items with
  | [] => {| entity := self; written := []; logged := [] |}
  | (manufacturer_id, data) :: rest =>
      if manufacturer_id =? 0x094F then
        let parsed := parse_mikrotik_data data in
        let state := dict_get (returned parsed) (_attribute self) in
        let state :=
          if String.eqb (_attribute self) "rssi" then PyInt rssi else state in
        {| entity := with_state self state;
           written := [state];
           logged := errors parsed |}
      else process_items self rssi rest
  end.

Definition _process_advertisement_data (self : MikroTikBLETagSensor)
    (device : BLEDevice) (advertisement_data : AdvertisementData) : handled :=
  process_items self (rssi advertisement_data)
    (manufacturer_data advertisement_data).

(** The callback registered by [_continuous_scan]. *)
Definition detection_callback (self : MikroTikBLETagSensor)
    (device : BLEDevice) (advertisement_data : AdvertisementData) : handled :=
  if String.eqb (PyStr.lower (address device)) (PyStr.lower (_mac self))
  then _process_advertisement_data self device advertisement_data
  else {| entity := self; written := []; logged := [] |}.

(** ** The config flow (config_flow.py) *)

(** The validated user input: the dict with the keys "name" and "mac" that
    [DATA_SCHEMA] requires. *)
Record user_input : Type := {
  input_name : string;
  input_mac : string
}.

Inductive flow_result : Type :=
| ShowForm (step_id : string) (form_errors : gmap string string)
| CreateEntry (title : string) (data : user_input) (unique_id : string)
| Abort (reason : string).

(** [async_step_user]; [configured] tells whether a config entry with the
    given unique id exists, which is when
    [_abort_if_unique_id_configured] aborts the flow. *)
Definition async_step_user (configured : string -> bool)
    (input : option user_input) : flow_result :=
  match input with
  | Some ui =>
      let mac := PyStr.upper (PyStr.replace ":" "" (input_mac ui)) in
      if negb (Z.of_nat (String.length mac) =? 12) || negb (PyStr.isalnum mac)
      then ShowForm "user" (<["mac" := "invalid_mac"]> ∅)
      else if configured mac then Abort "already_configured"
      else CreateEntry (input_name ui) ui mac
  | None => ShowForm "user" ∅
  end.

(** * The vocabulary of the statements *)

(** The 16-bit two's-complement reading of a word. *)
Definition signed16 (w : Z) : Z := if 0x7FFF <? w then w - 0x10000 else w.

(** ** The conversions as the documentation words them *)

Module Spec.

(** The two octets of a 16-bit word exchanged. *)
Definition swap16 (w : Z) : Z := 256 * (w mod 256) + (w / 256) mod 256.

(** A 16-bit word read as signed 8.8 fixed point: the signed integer
    over 256. *)
Definition fixed_8_8 (w : Z) : Q := signed16 w # 256.

(** Acceleration: swap, signed 8.8, zero outside [-16, 16]. *)
Definition acceleration (w : Z) : Q :=
  let q := fixed_8_8 (swap16 w) in
  if Qle_bool (-16) q && Qle_bool q 16 then q else 0%Q.

End Spec.

(** [x] lies within [tol] of [y]. *)
Definition near (x y tol : float) : bool :=
  PrimFloat.ltb (PrimFloat.abs (PrimFloat.sub x y)) tol.

(** [x] lies between 0.0 and 16.0 and is a multiple of 1/256. *)
Definition in_0_16 (x : float) : Prop :=
  PrimFloat.leb 0%float x = true /\ PrimFloat.leb x 16%float = true
  /\ exists k, 0 <= k <= 4096 /\ represents x (k # 256) = true.

(** An entry that is present and a float. *)
Definition is_float (o : option pyval) : Prop := exists x, o = Some (PyFloat x).

(** The keys of the six flags and their masks, in the same order. *)
Definition flag_keys : list string :=
  ["flag_reed_switch"; "flag_accel_tilt"; "flag_accel_free_fall";
   "flag_impact_x"; "flag_impact_y"; "flag_impact_z"].

Definition flag_masks : list Z := [0x01; 0x02; 0x04; 0x08; 0x10; 0x20].

(** The six flag entries of a dict, in the order of [flag_keys]. *)
Definition decoded_flags (d : gmap string pyval) : list (option pyval) :=
  List.map (fun k => d !! k) flag_keys.

(** The fields of a buffer, with the flag byte replaced. *)
Definition with_flag (u : unpacked) (f : Z) : unpacked :=
  {| payload_version := payload_version u;
     encryption_flag := encryption_flag u;
     salt := salt u;
     acc_x_raw := acc_x_raw u;
     acc_y_raw := acc_y_raw u;
     acc_z_raw := acc_z_raw u;
     temperature_raw := temperature_raw u;
     uptime := uptime u;
     flag := f;
     battery := battery u |}.

(** ** Sample advertisements *)

(** An 18-byte advertisement whose x axis carries the octets FF 00, the
    8.8 encoding of -1.0; everything else is zero. *)
Definition payload_minus_one_g : list byte :=
  [x00; x00; x00; x00; xff; x00; x00; x00; x00; x00; x00; x00;
   x00; x00; x00; x00; x00; x00].

(** Axes 3.0, 4.0 and 0.0: the octets 03 00, 04 00 and 00 00. *)
Definition payload_3_4_0 : list byte :=
  [x00; x00; x00; x00; x03; x00; x04; x00; x00; x00; x00; x00;
   x00; x00; x00; x00; x00; x00].

(** The all-zero advertisement with battery 50 and the tilt flag set. *)
Definition payload_tilt_50 : list byte :=
  [x00; x00; x00; x00; x00; x00; x00; x00; x00; x00; x00; x00;
   x00; x00; x00; x00; x02; x32].

(** ** Exhaustive checks on 16-bit quantities *)

(** [P] holds on the [k] integers from [lo] on. *)
Fixpoint holds_from (P : Z -> bool) (lo : Z) (k : nat) : bool :=
  match k with
  | O => true
  | S k' => P lo && holds_from P (lo + 1) k'
  end.

(** For an integer [n], the binary64 quotient [n / 256.0] stands for the
    rational [n/256], and its comparisons with the bounds of the decoder
    are the comparisons of [n] with 256 times the bound. *)
Definition div256_checks (n : Z) : bool :=
  let x := PrimFloat.div (float_of_Z n) 256%float in
  represents x (n # 256)
  && Bool.eqb (PrimFloat.ltb x (-16)%float) (n <? -4096)
  && Bool.eqb (PrimFloat.ltb 16%float x) (4096 <? n)
  && Bool.eqb (PrimFloat.ltb x (-50)%float) (n <? -12800)
  && Bool.eqb (PrimFloat.ltb 100%float x) (25600 <? n)
  && Bool.eqb (PrimFloat.leb 0%float x) (0 <=? n)
  && Bool.eqb (PrimFloat.leb x 16%float) (n <=? 4096).

(** For a count [k] of 1/256, the binary64 square of [k / 256.0] stands for
    the rational [k^2/65536]: squaring an axis value loses nothing. *)
Definition square_checks (k : Z) : bool :=
  represents (float_sq (PrimFloat.div (float_of_Z k) 256%float))
    ((k * k) # 65536).

(** ** Vocabulary for the entities, the callbacks and the config flow *)

(** For a signed 16-bit [n], the comparisons of [n / 256.0] with -50.0 and
    100.0 from inside are those of [n] with -12800 and 25600. *)
Definition temperature_checks (n : Z) : bool :=
  let x := PrimFloat.div (float_of_Z n) 256%float in
  Bool.eqb (PrimFloat.leb (-50)%float x) (-12800 <=? n)
  && Bool.eqb (PrimFloat.leb x 100%float) (n <=? 25600).

(** For a count [k] of 1/256, the norm of the vector with [k / 256.0] on
    one axis and 0.0 on the two others is [k / 256.0] itself, whichever the
    axis. *)
Definition single_axis_checks (k : Z) : bool :=
  let x := PrimFloat.div (float_of_Z k) 256%float in
  let zero := 0%float in
  PrimFloat.Leibniz.eqb
    (PrimFloat.sqrt (PrimFloat.add (PrimFloat.add (float_sq x) (float_sq zero)) (float_sq zero))) x
  && PrimFloat.Leibniz.eqb
    (PrimFloat.sqrt (PrimFloat.add (PrimFloat.add (float_sq zero) (float_sq x)) (float_sq zero))) x
  && PrimFloat.Leibniz.eqb
    (PrimFloat.sqrt (PrimFloat.add (PrimFloat.add (float_sq zero) (float_sq zero)) (float_sq x))) x.

(** A digit or the minus sign: the characters of a printed integer. *)
Definition numeric_char (c : ascii) : bool :=
  PyStr.char_isdigit c || Ascii.eqb c "-".

(** The attributes of the entities, in the order they are created. *)
Definition sensor_attributes : list string :=
  ["temperature"; "battery"; "rssi"; "acceleration_x"; "acceleration_y";
   "acceleration_z"; "total_acceleration"; "uptime"; "flag_reed_switch";
   "flag_accel_tilt"; "flag_accel_free_fall"; "flag_impact_x";
   "flag_impact_y"; "flag_impact_z"].

(** The 256 characters. *)
Definition all_ascii_chars : list ascii :=
  List.map (fun n => ascii_of_N (N.of_nat n)) (seq 0 256).

(** Two characters that are equal, or the two cases of one ASCII letter. *)
Definition char_same_letter (c d : ascii) : bool :=
  Ascii.eqb c d
  || (PyStr.char_isupper c && (PyStr.code d =? PyStr.code c + 32)%N)
  || (PyStr.char_isupper d && (PyStr.code c =? PyStr.code d + 32)%N).

(** Two strings of the same length whose characters agree up to the case
    of ASCII letters. *)
Fixpoint same_ignoring_case (s t : string) : bool :=
  match s, t with
  | EmptyString, EmptyString => true
  | String c s', String d t' => char_same_letter c d && same_ignoring_case s' t'
  | _, _ => false
  end.

(** [same_ignoring_case] on lists of characters. *)
Fixpoint same_letters (l l' : list ascii) : bool :=
  match l, l' with
  | [], [] => true
  | c :: r, d :: r' => char_same_letter c d && same_letters r r'
  | _, _ => false
  end.

(** The number of occurrences of a character. *)
Fixpoint count_char (c : ascii) (s : string) : nat :=
  match s with
  | EmptyString => O
  | String d r => (if Ascii.eqb d c then 1 else 0) + count_char c r
  end.

(** The characters of a string other than the colons. *)
Fixpoint mac_characters (s : string) : list ascii :=
  match s with
  | EmptyString => []
  | String c r => if Ascii.eqb c ":" then mac_characters r else c :: mac_characters r
  end.

(** An upper-case ASCII letter or a digit. *)
Definition char_is_upper_or_digit (c : ascii) : bool :=
  PyStr.char_isupper c || PyStr.char_isdigit c.

(** A tag configured with its address in the usual notation, its battery
    entity, the device as the scanner reports it and an advertisement that
    carries data of another manufacturer before MikroTik's. *)
Definition sample_entity : MikroTikBLETagSensor :=
  __init__ "Tag" "AA:BB:CC:DD:EE:FF" "battery" (Some BATTERY) (Some PERCENTAGE)
    {| identifiers := [("mikrotik_ble_tag", "AA:BB:CC:DD:EE:FF")];
       device_name := "Tag"; manufacturer := "MikroTik"; model := "BLE Tag" |}.

(** The signal-strength entity of the same tag. *)
Definition sample_rssi_entity : MikroTikBLETagSensor :=
  __init__ "Tag" "AA:BB:CC:DD:EE:FF" "rssi" (Some SIGNAL_STRENGTH)
    (Some SIGNAL_STRENGTH_DECIBELS_MILLIWATT)
    {| identifiers := [("mikrotik_ble_tag", "AA:BB:CC:DD:EE:FF")];
       device_name := "Tag"; manufacturer := "MikroTik"; model := "BLE Tag" |}.

Definition sample_device : BLEDevice := {| address := "aa:bb:cc:dd:ee:ff" |}.

Definition sample_advertisement (data : list byte) : AdvertisementData :=
  {| manufacturer_data := [(0x004C, [x02; x15]); (0x094F, data)];
     rssi := -60 |}.

(** The same tag typed with colons in lower case, and without colons. *)
Definition input_with_colons : user_input :=
  {| input_name := "Tag"; input_mac := "aa:bb:cc:dd:ee:ff" |}.

Definition input_without_colons : user_input :=
  {| input_name := "Tag"; input_mac := "AABBCCDDEEFF" |}.

(** * Properties *)

(** The entries of the dict, key by key. *)
Ltac dict_lookup :=
  unfold attributes; cbv zeta;
  repeat (rewrite lookup_insert_ne by discriminate);
  first [apply lookup_insert_eq | apply lookup_empty].

(** ** Checking a property on every integer of an interval *)

Lemma holds_from_spec (P : Z -> bool) (k : nat) :
  forall lo, holds_from P lo k = true ->
  forall n, lo <= n < lo + Z.of_nat k -> P n = true.
Proof.
  induction k as [|k IH]; intros lo H n Hn; simpl in H.
  - lia.
  - apply andb_prop in H as [H0 H1].
    destruct (Z.eq_dec n lo) as [->|Hne]; [exact H0|].
    apply (IH (lo + 1) H1). lia.
Qed.

(** ** Octet swapping, arithmetically *)

Lemma land_shifted_low (a b : Z) :
  0 <= b < 256 -> Z.land (Z.shiftl a 8) b = 0.
Proof.
  intros Hb. apply Z.bits_inj'. intros n Hn.
  rewrite Z.land_spec, Z.bits_0.
  destruct (Z.ltb_spec n 8) as [Hlt|Hge].
  - rewrite Z.shiftl_spec_low by lia. reflexivity.
  - replace (Z.testbit b n) with false; [apply andb_false_r|].
    symmetry. destruct (Z.eq_dec b 0) as [->|Hnz]; [apply Z.bits_0|].
    apply Z.bits_above_log2; [lia|].
    apply Z.log2_lt_pow2; [lia|].
    apply Z.lt_le_trans with (2 ^ 8); [simpl; lia|].
    apply Z.pow_le_mono_r; lia.
Qed.

(** The low octet moves up, the high octet moves down; whatever lies above
    bit 15 (the sign extension of a negative [int]) is dropped. *)
Lemma swap_octets_arith (value : Z) :
  swap_octets value = 256 * (value mod 256) + (value / 256) mod 256.
Proof.
  unfold swap_octets.
  change 0xFF with (Z.ones 8).
  rewrite !Z.land_ones by lia.
  rewrite Z.shiftr_div_pow2 by lia.
  change (2 ^ 8) with 256.
  assert (Hlo : 0 <= (value / 256) mod 256 < 256) by (apply Z.mod_pos_bound; lia).
  rewrite <- Z.lxor_lor by (apply land_shifted_low; exact Hlo).
  rewrite <- Z.add_nocarry_lxor by (apply land_shifted_low; exact Hlo).
  rewrite Z.shiftl_mul_pow2 by lia.
  change (2 ^ 8) with 256. lia.
Qed.

Lemma swap_octets_range (value : Z) : 0 <= swap_octets value < 65536.
Proof.
  rewrite swap_octets_arith.
  pose proof (Z.mod_pos_bound value 256).
  pose proof (Z.mod_pos_bound (value / 256) 256). lia.
Qed.

(** On a 16-bit word the swap is its own inverse. *)
Lemma swap_octets_involutive (w : Z) :
  0 <= w < 65536 -> swap_octets (swap_octets w) = w.
Proof.
  intros Hw. rewrite !swap_octets_arith.
  set (lo := w mod 256). set (hi := (w / 256) mod 256).
  assert (Hlo : 0 <= lo < 256) by (apply Z.mod_pos_bound; lia).
  assert (Hhi : 0 <= hi < 256) by (apply Z.mod_pos_bound; lia).
  assert (Hdiv : w / 256 = hi).
  { unfold hi. symmetry. apply Z.mod_small.
    split; [apply Z.div_pos; lia|apply Z.div_lt_upper_bound; lia]. }
  replace ((256 * lo + hi) mod 256) with hi
    by (rewrite Z.add_comm, Z.mul_comm, Z.mod_add by lia;
        symmetry; apply Z.mod_small; exact Hhi).
  replace ((256 * lo + hi) / 256) with lo
    by (rewrite Z.add_comm, Z.mul_comm, Z.div_add by lia;
        rewrite (Z.div_small hi) by exact Hhi; reflexivity).
  rewrite (Z.mod_small lo) by exact Hlo.
  pose proof (Z.div_mod w 256). unfold lo. lia.
Qed.

(** A field unpacked as 'h' may be negative: the octets 00 FF are read as
    -256, whose swap is 0x00FF like that of the unsigned word 0xFF00. *)
Lemma swap_octets_of_negative :
  i16le x00 xff = -256
  /\ swap_octets (-256) = 0x00FF
  /\ swap_octets 0xFF00 = 0x00FF
  /\ convert_acceleration (i16le x00 xff) = 0.99609375%float.
Proof. repeat split; vm_compute; reflexivity. Qed.

(** ** Division by 256.0 is exact on 16-bit quantities *)

Lemma div256_checks_all (n : Z) :
  -32768 <= n < 65536 -> div256_checks n = true.
Proof.
  intros Hn.
  apply (holds_from_spec div256_checks (Z.to_nat 98304) (-32768)).
  - vm_compute. reflexivity.
  - rewrite Z2Nat.id; lia.
Qed.

Lemma div256_facts (n : Z) :
  -32768 <= n < 65536 ->
  let x := PrimFloat.div (float_of_Z n) 256%float in
  represents x (n # 256) = true
  /\ PrimFloat.ltb x (-16)%float = (n <? -4096)
  /\ PrimFloat.ltb 16%float x = (4096 <? n)
  /\ PrimFloat.ltb x (-50)%float = (n <? -12800)
  /\ PrimFloat.ltb 100%float x = (25600 <? n)
  /\ PrimFloat.leb 0%float x = (0 <=? n)
  /\ PrimFloat.leb x 16%float = (n <=? 4096).
Proof.
  intros Hn x. pose proof (div256_checks_all n Hn) as H.
  unfold div256_checks in H. fold x in H.
  repeat (apply andb_prop in H as [H ?]).
  repeat split; try (apply eqb_prop; assumption). exact H.
Qed.

Lemma square_checks_all (k : Z) :
  0 <= k <= 4096 -> square_checks k = true.
Proof.
  intros Hk.
  apply (holds_from_spec square_checks (Z.to_nat 4097) 0).
  - vm_compute. reflexivity.
  - rewrite Z2Nat.id; lia.
Qed.

(** ** What the two fixed-point conversions compute *)

Lemma signed16_range (w : Z) :
  0 <= w < 65536 -> -32768 <= signed16 w < 32768.
Proof. unfold signed16. destruct (Z.ltb_spec 0x7FFF w); lia. Qed.

(** [convert_acceleration] reads the swapped word unsigned: up to 0x1000 it
    is returned scaled, above it the result is zero. *)
Lemma convert_acceleration_unsigned (value : Z) :
  let s := swap_octets value in
  if s <=? 4096
  then convert_acceleration value = PrimFloat.div (float_of_Z s) 256%float
       /\ represents (convert_acceleration value) (s # 256) = true
  else convert_acceleration value = 0%float.
Proof.
  intros s. pose proof (swap_octets_range value) as Hr. fold s in Hr.
  destruct (div256_facts s ltac:(lia)) as (Hq & Hlo & Hhi & _).
  unfold convert_acceleration. fold s. cbv zeta. rewrite Hlo, Hhi.
  destruct (Z.leb_spec s 4096) as [Hle|Hgt].
  - replace (s <? -4096) with false by (symmetry; apply Z.ltb_ge; lia).
    replace (4096 <? s) with false by (symmetry; apply Z.ltb_ge; lia).
    simpl. split; [reflexivity|exact Hq].
  - replace (4096 <? s) with true by (symmetry; apply Z.ltb_lt; lia).
    rewrite orb_true_r. reflexivity.
Qed.

(** [convert_temperature] reads the swapped word signed. *)
Lemma convert_temperature_signed (value : Z) :
  let t := signed16 (swap_octets value) in
  if (-12800 <=? t) && (t <=? 25600)
  then exists x, convert_temperature value = Some x
                 /\ x = PrimFloat.div (float_of_Z t) 256%float
                 /\ represents x (t # 256) = true
  else convert_temperature value = None.
Proof.
  intros t. pose proof (swap_octets_range value) as Hr.
  pose proof (signed16_range _ Hr) as Ht. fold t in Ht.
  destruct (div256_facts t ltac:(lia)) as (Hq & _ & _ & Hlo & Hhi & _).
  unfold convert_temperature. cbv zeta.
  change (if 0x7FFF <? swap_octets value
          then swap_octets value - 0x10000 else swap_octets value) with t.
  rewrite Hlo, Hhi.
  destruct (Z.leb_spec (-12800) t) as [H1|H1];
    destruct (Z.leb_spec t 25600) as [H2|H2]; simpl.
  - replace (t <? -12800) with false by (symmetry; apply Z.ltb_ge; lia).
    replace (25600 <? t) with false by (symmetry; apply Z.ltb_ge; lia).
    simpl. eexists. repeat split. exact Hq.
  - replace (25600 <? t) with true by (symmetry; apply Z.ltb_lt; lia).
    rewrite orb_true_r. reflexivity.
  - replace (t <? -12800) with true by (symmetry; apply Z.ltb_lt; lia).
    reflexivity.
  - lia.
Qed.

Lemma swap16_swap_octets (value : Z) : Spec.swap16 value = swap_octets value.
Proof. symmetry. apply swap_octets_arith. Qed.

(** ** Decoding a buffer of 18 bytes *)

Lemma unpack_length (data : list byte) (u : unpacked) :
  unpack data = inr u -> length data = 18%nat.
Proof.
  unfold unpack. intros H.
  do 18 (destruct data as [|? data]; [discriminate H|]).
  destruct data; [reflexivity|discriminate H].
Qed.

Lemma unpack_18 (data : list byte) :
  length data = 18%nat -> exists u, unpack data = inr u.
Proof.
  intros H.
  do 18 (destruct data as [|? data]; [discriminate H|]).
  destruct data; [|discriminate H].
  eexists. reflexivity.
Qed.

Lemma parse_18 (data : list byte) :
  length data = 18%nat ->
  exists u, unpack data = inr u
            /\ parse_mikrotik_data data = {| returned := attributes u; errors := [] |}.
Proof.
  intros H. destruct (unpack_18 data H) as [u Hu].
  exists u. split; [exact Hu|].
  unfold parse_mikrotik_data. rewrite H, Hu. reflexivity.
Qed.

Lemma parse_not_18 (data : list byte) :
  length data <> 18%nat ->
  parse_mikrotik_data data =
    {| returned := ∅;
       errors := ["Invalid data length: expected 18 bytes, got "
                    +:+ pretty (Z.of_nat (length data)) +:+ " bytes"] |}.
Proof.
  intros H. unfold parse_mikrotik_data.
  destruct (Z.eqb_spec (Z.of_nat (length data)) 18) as [E|E]; [lia|reflexivity].
Qed.

Lemma attributes_acceleration_x u :
  attributes u !! "acceleration_x" = Some (PyFloat (convert_acceleration (acc_x_raw u))).
Proof. dict_lookup. Qed.

Lemma attributes_acceleration_y u :
  attributes u !! "acceleration_y" = Some (PyFloat (convert_acceleration (acc_y_raw u))).
Proof. dict_lookup. Qed.

Lemma attributes_acceleration_z u :
  attributes u !! "acceleration_z" = Some (PyFloat (convert_acceleration (acc_z_raw u))).
Proof. dict_lookup. Qed.

Lemma attributes_total_acceleration u :
  attributes u !! "total_acceleration" =
    Some (py_of_float (calculate_total_acceleration
                         (Some (convert_acceleration (acc_x_raw u)))
                         (Some (convert_acceleration (acc_y_raw u)))
                         (Some (convert_acceleration (acc_z_raw u))))).
Proof. dict_lookup. Qed.

Lemma attributes_temperature u :
  attributes u !! "temperature" =
    Some (py_of_float (convert_temperature (temperature_raw u))).
Proof. dict_lookup. Qed.

Lemma attributes_uptime u :
  attributes u !! "uptime" = Some (PyStr (convert_uptime (uptime u))).
Proof. dict_lookup. Qed.

Lemma attributes_battery u :
  attributes u !! "battery" = Some (py_of_int (convert_battery (battery u))).
Proof. dict_lookup. Qed.

Lemma attributes_dom u :
  dom (attributes u) =
    list_to_set ["acceleration_x"; "acceleration_y"; "acceleration_z";
                 "total_acceleration"; "temperature"; "uptime";
                 "flag_reed_switch"; "flag_accel_tilt"; "flag_accel_free_fall";
                 "flag_impact_x"; "flag_impact_y"; "flag_impact_z"; "battery"]
    :> gset string.
Proof.
  unfold attributes. cbv zeta.
  rewrite !dom_insert_L, dom_empty_L. simpl. reflexivity.
Qed.

(** ** Acceleration *)

(** Wherever the swapped word has its sign bit set and stands for a value
    in [-16, 0), the signed reading is that negative value and
    [convert_acceleration] returns zero. *)
Lemma convert_acceleration_sign_lost (value : Z) :
  let t := signed16 (swap_octets value) in
  -4096 <= t < 0 ->
  convert_acceleration value = 0%float
  /\ (Spec.acceleration value == t # 256)%Q
  /\ (Spec.acceleration value < 0)%Q.
Proof.
  intros t Ht. pose proof (swap_octets_range value) as Hr.
  assert (Hs : 0x7FFF < swap_octets value).
  { unfold t, signed16 in Ht. destruct (Z.ltb_spec 0x7FFF (swap_octets value)); lia. }
  split.
  - pose proof (convert_acceleration_unsigned value) as H. cbv zeta in H.
    destruct (Z.leb_spec (swap_octets value) 4096); [lia|exact H].
  - unfold Spec.acceleration, Spec.fixed_8_8. rewrite swap16_swap_octets. fold t.
    cbv zeta.
    assert (H1 : Qle_bool (-16) (t # 256) = true)
      by (apply Qle_bool_iff; unfold Qle; simpl; lia).
    assert (H2 : Qle_bool (t # 256) 16 = true)
      by (apply Qle_bool_iff; unfold Qle; simpl; lia).
    rewrite H1, H2. simpl. split; [reflexivity|].
    unfold Qlt. simpl. lia.
Qed.

(** Everywhere else the two readings agree: the float returned stands for
    the documented value unless the signed reading lies in [-16, 0). *)
Lemma convert_acceleration_agrees_elsewhere (value : Z) :
  let t := signed16 (swap_octets value) in
  ~ (-4096 <= t < 0) ->
  represents (convert_acceleration value) (Spec.acceleration value) = true.
Proof.
  intros t Ht. pose proof (swap_octets_range value) as Hr.
  pose proof (convert_acceleration_unsigned value) as H. cbv zeta in H.
  unfold Spec.acceleration, Spec.fixed_8_8. rewrite swap16_swap_octets. fold t.
  cbv zeta.
  assert (Hlo : Qle_bool (-16) (t # 256) = (-4096 <=? t)).
  { destruct (Z.leb_spec (-4096) t).
    - apply Qle_bool_iff. unfold Qle. simpl. lia.
    - destruct (Qle_bool (-16) (t # 256)) eqn:E; [|reflexivity].
      apply Qle_bool_iff in E. unfold Qle in E. simpl in E. lia. }
  assert (Hhi : Qle_bool (t # 256) 16 = (t <=? 4096)).
  { destruct (Z.leb_spec t 4096).
    - apply Qle_bool_iff. unfold Qle. simpl. lia.
    - destruct (Qle_bool (t # 256) 16) eqn:E; [|reflexivity].
      apply Qle_bool_iff in E. unfold Qle in E. simpl in E. lia. }
  rewrite Hlo, Hhi.
  unfold t, signed16 in *.
  destruct (Z.ltb_spec 0x7FFF (swap_octets value)) as [Hneg|Hpos].
  - destruct (Z.leb_spec (swap_octets value) 4096); [lia|]. rewrite H.
    replace (-4096 <=? swap_octets value - 0x10000) with false
      by (symmetry; apply Z.leb_gt; lia).
    reflexivity.
  - destruct (Z.leb_spec (swap_octets value) 4096) as [Hle|Hgt].
    + replace (-4096 <=? swap_octets value) with true
        by (symmetry; apply Z.leb_le; lia).
      simpl. apply H.
    + rewrite H. rewrite andb_false_r. reflexivity.
Qed.

(** C1. The claim reads the swapped word as signed 8.8 fixed point, so the
    raw word 0x00FF (octets FF 00, swapped 0xFF00) stands for -1.0, a value
    inside [-16, 16] that the claim returns unchanged.  The code divides the
    unsigned swapped word: 65280 / 256.0 = 255.0 exceeds 16 and the axis
    reads 0.0, alone and through the whole decoder. *)
Theorem C1_negative_axis_reads_zero :
  (Spec.acceleration 0x00FF == -1)%Q
  /\ convert_acceleration 0x00FF = 0%float
  /\ returned (parse_mikrotik_data payload_minus_one_g) !! "acceleration_x"
     = Some (PyFloat 0%float).
Proof.
  split; [reflexivity|]. split; vm_compute; reflexivity.
Qed.

(** C2, as stated, fails: the word 0x0001 put on the wire little-endian is
    the octets 01 00; it is read back as 1, swapped to 0x0100 and decoded
    to 1.0, which is not within 2^-10 of 1/256. *)
Lemma C2_word_0x0001_not_near_one_256th :
  convert_acceleration (i16le x01 x00) = 1%float
  /\ near (convert_acceleration (i16le x01 x00)) 0.00390625%float
          0.0009765625%float = false.
Proof. split; vm_compute; reflexivity. Qed.

(** C2, amended: the raw word 0x0001 (octets 01 00 on the wire) decodes to
    exactly 1.0; the value 1/256 = 0.00390625 is what the raw word 0x0100
    (octets 00 01 on the wire) decodes to. *)
Theorem C2_swap_then_fixed_point :
  i16le x01 x00 = 0x0001
  /\ swap_octets 0x0001 = 0x0100
  /\ convert_acceleration (i16le x01 x00) = 1%float
  /\ i16le x00 x01 = 0x0100
  /\ swap_octets 0x0100 = 0x0001
  /\ convert_acceleration (i16le x00 x01) = 0.00390625%float
  /\ represents (convert_acceleration (i16le x00 x01)) (1 # 256) = true.
Proof. repeat split; vm_compute; reflexivity. Qed.

Lemma convert_acceleration_in_0_16 (value : Z) :
  in_0_16 (convert_acceleration value).
Proof.
  pose proof (convert_acceleration_unsigned value) as H. cbv zeta in H.
  pose proof (swap_octets_range value) as Hr.
  destruct (Z.leb_spec (swap_octets value) 4096) as [Hle|Hgt].
  - destruct H as [-> Hq].
    destruct (div256_facts (swap_octets value) ltac:(lia))
      as (_ & _ & _ & _ & _ & H0 & H16).
    cbv zeta in H0, H16. unfold in_0_16. rewrite H0, H16.
    repeat split.
    + apply Z.leb_le; lia.
    + apply Z.leb_le; lia.
    + exists (swap_octets value). split; [lia|].
      destruct (div256_facts (swap_octets value) ltac:(lia)) as (Hq' & _).
      exact Hq'.
  - rewrite H. unfold in_0_16. repeat split.
    exists 0. split; [lia|reflexivity].
Qed.

(** The square of a decoded axis is exact, so [x ** 2] and [x * x] are the
    same float there. *)
Lemma convert_acceleration_square_exact (value : Z) :
  exists k, 0 <= k <= 4096
            /\ represents (convert_acceleration value) (k # 256) = true
            /\ represents (float_sq (convert_acceleration value))
                 ((k * k) # 65536) = true.
Proof.
  pose proof (convert_acceleration_unsigned value) as H. cbv zeta in H.
  pose proof (swap_octets_range value) as Hr.
  destruct (Z.leb_spec (swap_octets value) 4096) as [Hle|Hgt].
  - destruct H as [Hx Hq]. exists (swap_octets value).
    split; [lia|]. split; [exact Hq|].
    rewrite Hx. apply (square_checks_all (swap_octets value)). lia.
  - exists 0. rewrite H. repeat split; lia.
Qed.

(** C9. Every axis of a decoded 18-byte buffer is a float between 0.0 and
    16.0, a multiple of 1/256: the swapped word is divided as it is, with
    no sign correction, so a swapped word above 0x7FFF gives a quotient
    above 16 and the axis is replaced by 0.0. *)
Theorem C9_axes_between_zero_and_sixteen :
  (forall data : list byte, length data = 18%nat ->
     exists x y z,
       returned (parse_mikrotik_data data) !! "acceleration_x" = Some (PyFloat x)
       /\ returned (parse_mikrotik_data data) !! "acceleration_y" = Some (PyFloat y)
       /\ returned (parse_mikrotik_data data) !! "acceleration_z" = Some (PyFloat z)
       /\ in_0_16 x /\ in_0_16 y /\ in_0_16 z)
  /\ (forall value : Z, 0x7FFF < swap_octets value ->
        PrimFloat.ltb 16%float
          (PrimFloat.div (float_of_Z (swap_octets value)) 256%float) = true
        /\ convert_acceleration value = 0%float).
Proof.
  split.
  - intros data Hlen. destruct (parse_18 data Hlen) as (u & _ & ->). simpl.
    exists (convert_acceleration (acc_x_raw u)),
           (convert_acceleration (acc_y_raw u)),
           (convert_acceleration (acc_z_raw u)).
    rewrite attributes_acceleration_x, attributes_acceleration_y,
      attributes_acceleration_z.
    repeat split; apply convert_acceleration_in_0_16.
  - intros value Hs. pose proof (swap_octets_range value) as Hr.
    destruct (div256_facts (swap_octets value) ltac:(lia)) as (_ & _ & Hhi & _).
    cbv zeta in Hhi. split.
    + rewrite Hhi. apply Z.ltb_lt. lia.
    + pose proof (convert_acceleration_unsigned value) as H. cbv zeta in H.
      destruct (Z.leb_spec (swap_octets value) 4096); [lia|exact H].
Qed.

(** The advertisement with octets FF 00 on the x axis, and the word 0x00FF. *)
Lemma C9_axes_between_zero_and_sixteen_witness :
  (exists x y z,
     returned (parse_mikrotik_data payload_minus_one_g) !! "acceleration_x"
       = Some (PyFloat x)
     /\ returned (parse_mikrotik_data payload_minus_one_g) !! "acceleration_y"
       = Some (PyFloat y)
     /\ returned (parse_mikrotik_data payload_minus_one_g) !! "acceleration_z"
       = Some (PyFloat z)
     /\ in_0_16 x /\ in_0_16 y /\ in_0_16 z)
  /\ (PrimFloat.ltb 16%float
        (PrimFloat.div (float_of_Z (swap_octets 0x00FF)) 256%float) = true
      /\ convert_acceleration 0x00FF = 0%float).
Proof.
  split.
  - apply (proj1 C9_axes_between_zero_and_sixteen payload_minus_one_g).
    reflexivity.
  - apply (proj2 C9_axes_between_zero_and_sixteen 0x00FF).
    vm_compute. reflexivity.
Defined.

(** ** Length check and failure *)

(** C3, as stated, fails: the value returned for a buffer of the wrong
    length is the empty dict whatever the length.  The empty buffer and a
    one-byte buffer return the same value, so nothing computed from the
    returned value reports the actual length, and no typed error tells a
    wrong length from any other failure. *)
Lemma C3_returned_value_reports_no_length :
  returned (parse_mikrotik_data []) = ∅
  /\ returned (parse_mikrotik_data [x00]) = ∅
  /\ ~ exists actual_length : gmap string pyval -> nat,
        forall data : list byte, length data <> 18%nat ->
          actual_length (returned (parse_mikrotik_data data)) = length data.
Proof.
  split; [reflexivity|]. split; [reflexivity|].
  intros [f Hf].
  pose proof (Hf [] ltac:(discriminate)) as H0.
  pose proof (Hf [x00] ltac:(discriminate)) as H1.
  rewrite parse_not_18 in H0 by discriminate.
  rewrite parse_not_18 in H1 by discriminate.
  simpl in H0, H1. congruence.
Qed.

(** C3, amended: a buffer whose length is not 18 returns the empty dict,
    the same for every such length, and logs one error message giving the
    expected length 18 and the actual length; a buffer of 18 bytes is always
    unpacked, returns the dict of the thirteen attributes and logs no error.
    The function is total: nothing is raised to the caller. *)
Theorem C3_empty_dict_or_thirteen_attributes (data : list byte) :
  (length data <> 18%nat ->
     parse_mikrotik_data data =
       {| returned := ∅;
          errors := ["Invalid data length: expected 18 bytes, got "
                       +:+ pretty (Z.of_nat (length data)) +:+ " bytes"] |})
  /\ (length data = 18%nat ->
        exists u, unpack data = inr u
          /\ parse_mikrotik_data data = {| returned := attributes u; errors := [] |}
          /\ dom (attributes u) =
               list_to_set
                 ["acceleration_x"; "acceleration_y"; "acceleration_z";
                  "total_acceleration"; "temperature"; "uptime";
                  "flag_reed_switch"; "flag_accel_tilt"; "flag_accel_free_fall";
                  "flag_impact_x"; "flag_impact_y"; "flag_impact_z"; "battery"]
               :> gset string).
Proof.
  split.
  - apply parse_not_18.
  - intros H. destruct (parse_18 data H) as (u & Hu & Hp).
    exists u. split; [exact Hu|]. split; [exact Hp|apply attributes_dom].
Qed.

(** A three-byte buffer and an 18-byte one. *)
Lemma C3_empty_dict_or_thirteen_attributes_witness :
  parse_mikrotik_data [x01; x02; x03] =
    {| returned := ∅;
       errors := ["Invalid data length: expected 18 bytes, got 3 bytes"] |}
  /\ exists u, unpack payload_minus_one_g = inr u
       /\ parse_mikrotik_data payload_minus_one_g
          = {| returned := attributes u; errors := [] |}
       /\ dom (attributes u) =
            list_to_set
              ["acceleration_x"; "acceleration_y"; "acceleration_z";
               "total_acceleration"; "temperature"; "uptime";
               "flag_reed_switch"; "flag_accel_tilt"; "flag_accel_free_fall";
               "flag_impact_x"; "flag_impact_y"; "flag_impact_z"; "battery"]
            :> gset string.
Proof.
  split.
  - apply (proj1 (C3_empty_dict_or_thirteen_attributes [x01; x02; x03])).
    discriminate.
  - apply (proj2 (C3_empty_dict_or_thirteen_attributes payload_minus_one_g)).
    reflexivity.
Defined.

(** ** Temperature *)

(** C4. The temperature is the swapped word, read as a signed 16-bit
    integer (0x10000 subtracted above 0x7FFF), over 256: the float returned
    stands for exactly that rational.  It is absent exactly when that value
    is below -50 or above 100, and never replaced by zero; the raw word
    0x0019 (swapped 0x1900) gives 25.0, the bounds -50.0 and 100.0
    themselves are returned. *)
Theorem C4_temperature_signed_fixed_point :
  (forall value : Z,
     let q := Spec.fixed_8_8 (Spec.swap16 value) in
     (convert_temperature value = None <-> (q < -50 \/ 100 < q)%Q)
     /\ (forall x, convert_temperature value = Some x ->
           x = PrimFloat.div
                 (float_of_Z (if 0x7FFF <? swap_octets value
                              then swap_octets value - 0x10000
                              else swap_octets value)) 256%float
           /\ represents x q = true))
  /\ convert_temperature 0x0019 = Some 25%float
  /\ convert_temperature 0x00CE = Some (-50)%float
  /\ convert_temperature 0x0064 = Some 100%float
  /\ convert_temperature 0xFFCD = None
  /\ convert_temperature 0x0164 = None.
Proof.
  split; [|repeat split; vm_compute; reflexivity].
  intros value q. unfold q, Spec.fixed_8_8. rewrite swap16_swap_octets.
  pose proof (convert_temperature_signed value) as H. cbv zeta in H.
  set (t := signed16 (swap_octets value)) in *.
  destruct (Z.leb_spec (-12800) t) as [H1|H1];
    destruct (Z.leb_spec t 25600) as [H2|H2]; simpl in H.
  - destruct H as (x & Hx & Hdiv & Hq). rewrite Hx. split.
    + split; [discriminate|]. unfold Qlt. simpl. lia.
    + intros x' [= <-]. split; [exact Hdiv|exact Hq].
  - rewrite H. split.
    + split; [|reflexivity]. intros _. right. unfold Qlt. simpl. lia.
    + discriminate.
  - rewrite H. split.
    + split; [|reflexivity]. intros _. left. unfold Qlt. simpl. lia.
    + discriminate.
  - lia.
Qed.

(** The raw word 0x0019 and the float 25.0. *)
Lemma C4_temperature_signed_fixed_point_witness :
  25%float
  = PrimFloat.div
      (float_of_Z (if 0x7FFF <? swap_octets 0x0019
                   then swap_octets 0x0019 - 0x10000
                   else swap_octets 0x0019)) 256%float
  /\ represents 25%float (Spec.fixed_8_8 (Spec.swap16 0x0019)) = true.
Proof.
  apply (proj2 (proj1 C4_temperature_signed_fixed_point 0x0019) 25%float).
  vm_compute. reflexivity.
Defined.

(** ** Total acceleration *)

(** C5. In the value returned for any buffer, the total acceleration is a
    float if and only if the three axes are floats; it is then the binary64
    square root of the sum of the three squares of the axis values as they are
    returned, zero-clamped or not.  The helper yields nothing as soon as one
    argument is None, and axes 3.0, 4.0, 0.0 give exactly 5.0. *)
Theorem C5_total_acceleration_norm :
  (forall data : list byte,
     let d := returned (parse_mikrotik_data data) in
     (is_float (d !! "total_acceleration")
      <-> is_float (d !! "acceleration_x") /\ is_float (d !! "acceleration_y")
          /\ is_float (d !! "acceleration_z"))
     /\ (forall x y z,
           d !! "acceleration_x" = Some (PyFloat x) ->
           d !! "acceleration_y" = Some (PyFloat y) ->
           d !! "acceleration_z" = Some (PyFloat z) ->
           d !! "total_acceleration"
           = Some (PyFloat (PrimFloat.sqrt (x * x + y * y + z * z)%float))))
  /\ (forall ox oy oz : option float,
        calculate_total_acceleration ox oy oz = None
        <-> ox = None \/ oy = None \/ oz = None)
  /\ calculate_total_acceleration (Some 3%float) (Some 4%float) (Some 0%float)
     = Some 5%float
  /\ returned (parse_mikrotik_data payload_3_4_0) !! "total_acceleration"
     = Some (PyFloat 5%float).
Proof.
  split; [|split; [|split; vm_compute; reflexivity]].
  - intros data d. subst d.
    destruct (Nat.eq_dec (length data) 18%nat) as [Hlen|Hlen].
    + destruct (parse_18 data Hlen) as (u & _ & ->). simpl.
      rewrite attributes_acceleration_x, attributes_acceleration_y,
        attributes_acceleration_z, attributes_total_acceleration.
      simpl. split.
      * unfold is_float. split; intros _; repeat split; eexists; reflexivity.
      * intros x y z [= <-] [= <-] [= <-]. reflexivity.
    + rewrite (parse_not_18 data Hlen). simpl. rewrite !lookup_empty. split.
      * unfold is_float. split.
        -- intros [? H]. discriminate H.
        -- intros [[? H] _]. discriminate H.
      * intros x y z H. discriminate H.
  - intros [x|] [y|] [z|]; simpl; split; intros H;
      try discriminate H; try reflexivity; auto.
    destruct H as [H|[H|H]]; discriminate H.
Qed.

(** The advertisement with axes 3.0, 4.0 and 0.0. *)
Lemma C5_total_acceleration_norm_witness :
  returned (parse_mikrotik_data payload_3_4_0) !! "total_acceleration"
  = Some (PyFloat (PrimFloat.sqrt (3 * 3 + 4 * 4 + 0 * 0)%float)).
Proof.
  apply (proj2 (proj1 C5_total_acceleration_norm payload_3_4_0));
    vm_compute; reflexivity.
Defined.

(** ** Battery *)

Lemma u8_range (b : byte) : 0 <= u8 b <= 255.
Proof.
  unfold u8. pose proof (Byte.to_N_bounded b) as H. lia.
Qed.

(** C6. The battery field is the last byte of the buffer, read unsigned,
    so it lies in 0..255 and the test [value < 0] is never true; the result
    is the byte itself up to 100 and None above, also in the returned
    dict. *)
Theorem C6_battery_percentage :
  (forall b : byte,
     0 <= u8 b <= 255
     /\ (u8 b <? 0) = false
     /\ convert_battery (u8 b) = (if u8 b <=? 100 then Some (u8 b) else None))
  /\ (forall (data : list byte) (u : unpacked),
        unpack data = inr u ->
        exists b : byte,
          data !! 17%nat = Some b /\ battery u = u8 b
          /\ attributes u !! "battery"
             = Some (if u8 b <=? 100 then PyInt (u8 b) else PyNone)).
Proof.
  assert (Hb : forall b : byte,
             convert_battery (u8 b) = (if u8 b <=? 100 then Some (u8 b) else None)).
  { intros b. pose proof (u8_range b) as Hr. unfold convert_battery.
    replace (u8 b <? 0) with false by (symmetry; apply Z.ltb_ge; lia).
    simpl. destruct (Z.ltb_spec 100 (u8 b)), (Z.leb_spec (u8 b) 100);
      try reflexivity; lia. }
  split.
  - intros b. pose proof (u8_range b) as Hr.
    repeat split; try lia. apply Hb.
  - intros data u Hu. unfold unpack in Hu.
    do 18 (destruct data as [|? data]; [discriminate Hu|]).
    destruct data; [|discriminate Hu].
    injection Hu as <-. eexists. split; [reflexivity|]. split; [reflexivity|].
    rewrite attributes_battery. simpl battery. rewrite Hb.
    destruct (u8 _ <=? 100); reflexivity.
Qed.

(** The advertisement with battery 50. *)
Lemma C6_battery_percentage_witness :
  exists b : byte,
    payload_tilt_50 !! 17%nat = Some b
    /\ battery (Unpacked 0 0 0 0 0 0 0 0 2 50) = u8 b
    /\ attributes (Unpacked 0 0 0 0 0 0 0 0 2 50) !! "battery"
       = Some (if u8 b <=? 100 then PyInt (u8 b) else PyNone).
Proof.
  apply (proj2 C6_battery_percentage payload_tilt_50). reflexivity.
Defined.

(** ** Flags *)

Lemma attributes_flags (u : unpacked) :
  decoded_flags (attributes u)
  = List.map (fun m => Some (PyBool (py_bool (Z.land (flag u) m)))) flag_masks.
Proof.
  unfold decoded_flags, flag_keys, flag_masks. cbn [List.map].
  repeat (f_equal; [dict_lookup|]). reflexivity.
Qed.

(** Masking with a single bit and testing against zero reads that bit. *)
Lemma py_bool_land_pow2 (n k : Z) :
  0 <= k -> py_bool (Z.land n (2 ^ k)) = Z.testbit n k.
Proof.
  intros Hk. unfold py_bool.
  destruct (Z.testbit n k) eqn:Hbit.
  - apply negb_true_iff, Z.eqb_neq. intros H0.
    assert (Hb : Z.testbit (Z.land n (2 ^ k)) k = true)
      by (rewrite Z.land_spec, Hbit, Z.pow2_bits_true by exact Hk; reflexivity).
    rewrite H0, Z.bits_0 in Hb. discriminate Hb.
  - apply negb_false_iff, Z.eqb_eq. apply Z.bits_inj'. intros i Hi.
    rewrite Z.land_spec, Z.bits_0, Z.pow2_bits_eqb by exact Hk.
    destruct (Z.eqb_spec k i) as [<-|_];
      [rewrite Hbit; reflexivity|apply andb_false_r].
Qed.

Lemma flags_are_bits (f : Z) :
  List.map (fun m => py_bool (Z.land f m)) flag_masks
  = List.map (Z.testbit f) [0; 1; 2; 3; 4; 5].
Proof.
  unfold flag_masks. cbn [List.map].
  change 0x01 with (2 ^ 0). change 0x02 with (2 ^ 1). change 0x04 with (2 ^ 2).
  change 0x08 with (2 ^ 3). change 0x10 with (2 ^ 4). change 0x20 with (2 ^ 5).
  rewrite !py_bool_land_pow2 by lia. reflexivity.
Qed.

(** C7. Each flag of the returned dict is [(flag & mask) != 0] for its
    mask, which is bit 0 to bit 5 of the flag byte in the order reed switch,
    tilt, free fall, impact x, impact y, impact z.  Two flag bytes that agree
    on their six low bits decode to the same flags, so 0x40 and 0x80 change
    nothing.  0x3F sets the six flags, 0x00 none, 0x09 reed switch and
    impact x only. *)
Theorem C7_flags_are_the_six_low_bits :
  (forall u : unpacked,
     decoded_flags (attributes u)
     = List.map (fun m => Some (PyBool (negb (Z.land (flag u) m =? 0))))
         [0x01; 0x02; 0x04; 0x08; 0x10; 0x20]
     /\ decoded_flags (attributes u)
        = List.map (fun k => Some (PyBool (Z.testbit (flag u) k)))
            [0; 1; 2; 3; 4; 5])
  /\ (forall u u' : unpacked,
        Z.land (flag u) 0x3F = Z.land (flag u') 0x3F ->
        decoded_flags (attributes u) = decoded_flags (attributes u'))
  /\ (forall u : unpacked,
        decoded_flags (attributes (with_flag u (Z.lor (flag u) 0x40)))
        = decoded_flags (attributes u)
        /\ decoded_flags (attributes (with_flag u (Z.lor (flag u) 0x80)))
           = decoded_flags (attributes u))
  /\ (forall u : unpacked,
        decoded_flags (attributes (with_flag u 0x3F))
        = List.map (fun b => Some (PyBool b)) [true; true; true; true; true; true]
        /\ decoded_flags (attributes (with_flag u 0x00))
           = List.map (fun b => Some (PyBool b))
               [false; false; false; false; false; false]
        /\ decoded_flags (attributes (with_flag u 0x09))
           = List.map (fun b => Some (PyBool b))
               [true; false; false; true; false; false]).
Proof.
  assert (Hbits : forall u : unpacked,
             decoded_flags (attributes u)
             = List.map (fun k => Some (PyBool (Z.testbit (flag u) k)))
                 [0; 1; 2; 3; 4; 5]).
  { intros u. rewrite attributes_flags.
    pose proof (flags_are_bits (flag u)) as H.
    unfold flag_masks in *. cbn [List.map] in *.
    injection H as -> -> -> -> -> ->. reflexivity. }
  assert (Hlow : forall f k, 0 <= k < 6 ->
             Z.testbit f k = Z.testbit (Z.land f 0x3F) k).
  { intros f k Hk. change 0x3F with (Z.ones 6).
    rewrite Z.land_spec, Z.ones_spec_low by lia. symmetry. apply andb_true_r. }
  assert (Hsame : forall u u' : unpacked,
             Z.land (flag u) 0x3F = Z.land (flag u') 0x3F ->
             decoded_flags (attributes u) = decoded_flags (attributes u')).
  { intros u u' H. rewrite !Hbits. cbn [List.map].
    rewrite !(Hlow (flag u)), !(Hlow (flag u')) by lia. rewrite H. reflexivity. }
  assert (Hhigh : forall f k, 6 <= k ->
             Z.land (Z.lor f (2 ^ k)) 0x3F = Z.land f 0x3F).
  { intros f k Hk. apply Z.bits_inj'. intros i Hi.
    rewrite !Z.land_spec, Z.lor_spec, Z.pow2_bits_eqb by lia.
    change 0x3F with (Z.ones 6).
    destruct (Z.ltb_spec i 6) as [Hlt|Hge].
    - replace (k =? i) with false by (symmetry; apply Z.eqb_neq; lia).
      rewrite orb_false_r. reflexivity.
    - rewrite Z.ones_spec_high by lia. rewrite !andb_false_r. reflexivity. }
  split; [|split; [exact Hsame|split]].
  - intros u. split; [apply attributes_flags|apply Hbits].
  - intros u. split; apply Hsame; simpl flag.
    + change 0x40 with (2 ^ 6). apply Hhigh. lia.
    + change 0x80 with (2 ^ 7). apply Hhigh. lia.
  - intros u. rewrite !Hbits. simpl flag. repeat split.
Qed.

(** The flag bytes 0xC9 and 0x09 differ in bits 6 and 7 only. *)
Lemma C7_flags_are_the_six_low_bits_witness :
  decoded_flags (attributes (Unpacked 0 0 0 0 0 0 0 0 0xC9 50))
  = decoded_flags (attributes (Unpacked 0 0 0 0 0 0 0 0 0x09 50)).
Proof.
  apply (proj1 (proj2 C7_flags_are_the_six_low_bits)). reflexivity.
Defined.

(** ** Uptime *)

Lemma u32le_range (b0 b1 b2 b3 : byte) : 0 <= u32le b0 b1 b2 b3 < 2 ^ 32.
Proof.
  unfold u32le.
  pose proof (u8_range b0). pose proof (u8_range b1).
  pose proof (u8_range b2). pose proof (u8_range b3).
  change (2 ^ 32) with 4294967296. lia.
Qed.

Lemma unpack_uptime_range (data : list byte) (u : unpacked) :
  unpack data = inr u -> 0 <= uptime u < 2 ^ 32.
Proof.
  unfold unpack. intros Hu.
  do 18 (destruct data as [|? data]; [discriminate Hu|]).
  destruct data; [|discriminate Hu].
  injection Hu as <-. apply u32le_range.
Qed.

(** The running remainders of [convert_uptime], without the in-place
    updates. *)
Lemma uptime_parts_closed_form (s : Z) :
  uptime_parts s = (s / 86400, (s / 3600) mod 24, (s / 60) mod 60, s mod 60).
Proof.
  unfold uptime_parts. cbv zeta. change (24 * 3600) with 86400.
  assert (Hh : (s mod 86400) / 3600 = (s / 3600) mod 24)
    by (Z.div_mod_to_equations; lia).
  assert (Hr : (s mod 86400) mod 3600 = s mod 3600)
    by (Z.div_mod_to_equations; lia).
  assert (Hm : (s mod 3600) / 60 = (s / 60) mod 60)
    by (Z.div_mod_to_equations; lia).
  assert (Hs : (s mod 3600) mod 60 = s mod 60)
    by (Z.div_mod_to_equations; lia).
  rewrite Hr, Hh, Hm, Hs. reflexivity.
Qed.

(** C8. The uptime is split by floor division and remainder only: days
    are the quotient by 86400, hours, minutes and seconds the successive
    quotients and remainders by 3600 and 60.  No value is tested or
    rejected: the dict of every unpacked buffer holds the formatted string,
    up to the largest 32-bit count.  90065 seconds are 1 day, 1 hour,
    1 minute and 5 seconds. *)
Theorem C8_uptime_by_division_and_remainder :
  (forall s : Z,
     uptime_parts s
     = (s / 86400, (s mod 86400) / 3600, ((s mod 86400) mod 3600) / 60,
        ((s mod 86400) mod 3600) mod 60)
     /\ uptime_parts s
        = (s / 86400, (s / 3600) mod 24, (s / 60) mod 60, s mod 60))
  /\ (forall u : unpacked,
        exists d h m s : Z,
          uptime_parts (uptime u) = (d, h, m, s)
          /\ attributes u !! "uptime"
             = Some (PyStr (pretty d +:+ "d " +:+ pretty h +:+ "h "
                              +:+ pretty m +:+ "m " +:+ pretty s +:+ "s")))
  /\ uptime_parts 90065 = (1, 1, 1, 5)
  /\ convert_uptime 90065 = "1d 1h 1m 5s"
  /\ convert_uptime 0 = "0d 0h 0m 0s"
  /\ convert_uptime 4294967295 = "49710d 6h 28m 15s".
Proof.
  split; [|split; [|repeat split; vm_compute; reflexivity]].
  - intros s. split; [reflexivity|apply uptime_parts_closed_form].
  - intros u. rewrite attributes_uptime. unfold convert_uptime.
    destruct (uptime_parts (uptime u)) as [[[d h] m] s].
    exists d, h, m, s. split; reflexivity.
Qed.

(** C10. For a 32-bit unsigned count the four parts give the count back,
    with hours below 24, minutes and seconds below 60 and no part
    negative. *)
Theorem C10_uptime_parts_reconstruct (s : Z) :
  0 <= s < 2 ^ 32 ->
  let '(days, hours, minutes, seconds) := uptime_parts s in
  days * 86400 + hours * 3600 + minutes * 60 + seconds = s
  /\ 0 <= days < 49711
  /\ 0 <= hours < 24 /\ 0 <= minutes < 60 /\ 0 <= seconds < 60.
Proof.
  intros Hs. change (2 ^ 32) with 4294967296 in Hs.
  unfold uptime_parts. cbv zeta. change (24 * 3600) with 86400.
  repeat split; Z.div_mod_to_equations; lia.
Qed.

(** 90065 seconds. *)
Lemma C10_uptime_parts_reconstruct_witness :
  let '(days, hours, minutes, seconds) := uptime_parts 90065 in
  days * 86400 + hours * 3600 + minutes * 60 + seconds = 90065
  /\ 0 <= days < 49711
  /\ 0 <= hours < 24 /\ 0 <= minutes < 60 /\ 0 <= seconds < 60.
Proof.
  apply (C10_uptime_parts_reconstruct 90065). split; [lia|reflexivity].
Defined.

(** ** A whole advertisement *)

(** The all-zero buffer with battery 50 and flag 0x02: the three axes and
    their norm are 0.0, the temperature is present at 0.0, the battery is 50,
    only the tilt flag is set and the uptime reads "0d 0h 0m 0s". *)
Lemma parse_all_zero_tilt_50 :
  let d := returned (parse_mikrotik_data payload_tilt_50) in
  errors (parse_mikrotik_data payload_tilt_50) = []
  /\ d !! "acceleration_x" = Some (PyFloat 0%float)
  /\ d !! "acceleration_y" = Some (PyFloat 0%float)
  /\ d !! "acceleration_z" = Some (PyFloat 0%float)
  /\ d !! "total_acceleration" = Some (PyFloat 0%float)
  /\ d !! "temperature" = Some (PyFloat 0%float)
  /\ d !! "battery" = Some (PyInt 50)
  /\ d !! "uptime" = Some (PyStr "0d 0h 0m 0s")
  /\ decoded_flags d
     = List.map (fun b => Some (PyBool b))
         [false; true; false; false; false; false]
  /\ d !! "rssi" = None.
Proof. cbv zeta. repeat split; vm_compute; reflexivity. Qed.

(** * Further properties of the decoder *)

(** ** Octets on the wire *)

Lemma represents_proper (x : float) (q r : Q) :
  represents x q = true -> (q == r)%Q -> represents x r = true.
Proof.
  unfold represents. destruct (F2Q x) as [v|]; [|discriminate].
  intros H E. apply Qeq_bool_iff. apply Qeq_bool_iff in H.
  rewrite H. exact E.
Qed.

(** X1. [swap_octets] exchanges the two low octets of any integer, negative
    ones included, and drops everything above bit 15: the result is a 16-bit
    word and does not change when a multiple of 65536 is added. *)
Theorem X1_swap_octets_keeps_two_octets (value : Z) :
  swap_octets value = 256 * (value mod 256) + (value / 256) mod 256
  /\ 0 <= swap_octets value < 65536
  /\ (forall k : Z, swap_octets (value + 65536 * k) = swap_octets value).
Proof.
  split; [apply swap_octets_arith|]. split; [apply swap_octets_range|].
  intros k. rewrite !swap_octets_arith.
  assert (H1 : (value + 65536 * k) mod 256 = value mod 256)
    by (Z.div_mod_to_equations; lia).
  assert (H2 : ((value + 65536 * k) / 256) mod 256 = (value / 256) mod 256)
    by (Z.div_mod_to_equations; lia).
  rewrite H1, H2. reflexivity.
Qed.

(** X2. On 16-bit words [swap_octets] undoes itself, so two different words
    never swap to the same word. *)
Theorem X2_swap_octets_round_trip (w : Z) :
  0 <= w < 65536 ->
  swap_octets (swap_octets w) = w
  /\ (forall w', 0 <= w' < 65536 -> swap_octets w = swap_octets w' -> w = w').
Proof.
  intros Hw. split; [apply swap_octets_involutive; exact Hw|].
  intros w' Hw' E.
  rewrite <- (swap_octets_involutive w Hw), <- (swap_octets_involutive w' Hw').
  rewrite E. reflexivity.
Qed.

Lemma X2_swap_octets_round_trip_witness :
  swap_octets (swap_octets 0x1234) = 0x1234
  /\ (forall w', 0 <= w' < 65536 -> swap_octets 0x1234 = swap_octets w' -> 0x1234 = w').
Proof. apply (X2_swap_octets_round_trip 0x1234). lia. Defined.

Lemma swap_octets_i16le (b0 b1 : byte) :
  swap_octets (i16le b0 b1) = 256 * u8 b0 + u8 b1.
Proof.
  rewrite swap_octets_arith. unfold i16le, u16le.
  pose proof (u8_range b0). pose proof (u8_range b1).
  destruct (0x8000 <=? u8 b0 + 256 * u8 b1);
    Z.div_mod_to_equations; lia.
Qed.

(** X3. Reading two octets little-endian, signed or unsigned, and swapping
    is reading them big-endian and unsigned: the first octet on the wire is
    the high one. *)
Theorem X3_wire_octets_read_big_endian (b0 b1 : byte) :
  swap_octets (i16le b0 b1) = 256 * u8 b0 + u8 b1
  /\ swap_octets (u16le b0 b1) = 256 * u8 b0 + u8 b1
  /\ swap_octets (i16le b0 b1) = u16le b1 b0.
Proof.
  split; [apply swap_octets_i16le|]. split.
  - rewrite swap_octets_arith. unfold u16le.
    pose proof (u8_range b0). pose proof (u8_range b1).
    Z.div_mod_to_equations; lia.
  - rewrite swap_octets_i16le. unfold u16le. lia.
Qed.

(** X4. An axis sent as the octets [b0 b1] decodes to b0 + b1/256, the first
    octet being the integer part, as long as 256*b0 + b1 is at most 4096;
    otherwise the axis is 0.0. *)
Theorem X4_acceleration_from_wire_octets (b0 b1 : byte) :
  let n := 256 * u8 b0 + u8 b1 in
  if n <=? 4096
  then represents (convert_acceleration (i16le b0 b1))
         ((u8 b0 # 1) + (u8 b1 # 256)) = true
  else convert_acceleration (i16le b0 b1) = 0%float.
Proof.
  intros n. pose proof (convert_acceleration_unsigned (i16le b0 b1)) as H.
  cbv zeta in H. rewrite swap_octets_i16le in H. fold n in H.
  destruct (n <=? 4096); [|exact H].
  destruct H as [_ H]. apply (represents_proper _ _ _ H).
  unfold n, Qeq, Qplus. simpl. lia.
Qed.

Lemma temperature_checks_all (n : Z) :
  -32768 <= n < 32768 -> temperature_checks n = true.
Proof.
  intros Hn.
  apply (holds_from_spec temperature_checks (Z.to_nat 65536) (-32768)).
  - vm_compute. reflexivity.
  - rewrite Z2Nat.id; lia.
Qed.

(** X5. A temperature sent as the octets [b0 b1] is the signed 16-bit
    big-endian number over 256.  When returned it lies between -50.0 and
    100.0; it is None exactly when that number is below -12800 or above
    25600. *)
Theorem X5_temperature_from_wire_octets (b0 b1 : byte) :
  let t := signed16 (256 * u8 b0 + u8 b1) in
  match convert_temperature (i16le b0 b1) with
  | Some x =>
      -12800 <= t <= 25600
      /\ represents x (t # 256) = true
      /\ PrimFloat.leb (-50)%float x = true
      /\ PrimFloat.leb x 100%float = true
  | None => t < -12800 \/ 25600 < t
  end.
Proof.
  intros t. pose proof (convert_temperature_signed (i16le b0 b1)) as H.
  cbv zeta in H. rewrite swap_octets_i16le in H. fold t in H.
  assert (Ht : -32768 <= t < 32768).
  { apply signed16_range. pose proof (u8_range b0). pose proof (u8_range b1). lia. }
  destruct (Z.leb_spec (-12800) t) as [H1|H1];
    destruct (Z.leb_spec t 25600) as [H2|H2]; simpl in H.
  - destruct H as (x & -> & Hx & Hq).
    pose proof (temperature_checks_all t Ht) as Hc.
    unfold temperature_checks in Hc. cbv zeta in Hc. rewrite <- Hx in Hc.
    apply andb_prop in Hc as [Hlo Hhi].
    apply eqb_prop in Hlo, Hhi.
    repeat split; try lia; try exact Hq.
    + rewrite Hlo. apply Z.leb_le. lia.
    + rewrite Hhi. apply Z.leb_le. lia.
  - rewrite H. right. lia.
  - rewrite H. left. lia.
  - lia.
Qed.

(** ** Buffers *)

Lemma i16le_range (b0 b1 : byte) : -32768 <= i16le b0 b1 < 32768.
Proof.
  unfold i16le, u16le. pose proof (u8_range b0). pose proof (u8_range b1).
  destruct (Z.leb_spec 0x8000 (u8 b0 + 256 * u8 b1)); lia.
Qed.

(** X6. The buffer is unpacked exactly when it has 18 bytes, and each field
    then lies in the range of its format code. *)
Theorem X6_unpack_takes_18_bytes (data : list byte) :
  (length data = 18%nat <-> exists u, unpack data = inr u)
  /\ (forall u, unpack data = inr u ->
        0 <= payload_version u < 256
        /\ 0 <= encryption_flag u < 256
        /\ 0 <= salt u < 65536
        /\ -32768 <= acc_x_raw u < 32768
        /\ -32768 <= acc_y_raw u < 32768
        /\ -32768 <= acc_z_raw u < 32768
        /\ -32768 <= temperature_raw u < 32768
        /\ 0 <= uptime u < 2 ^ 32
        /\ 0 <= flag u < 256
        /\ 0 <= battery u < 256).
Proof.
  split.
  - split; [apply unpack_18|]. intros [u Hu]. exact (unpack_length data u Hu).
  - intros u Hu. pose proof (unpack_uptime_range data u Hu) as Hup.
    unfold unpack in Hu.
    do 18 (destruct data as [|? data]; [discriminate Hu|]).
    destruct data; [|discriminate Hu].
    injection Hu as <-. cbn [payload_version encryption_flag salt acc_x_raw
      acc_y_raw acc_z_raw temperature_raw uptime flag battery] in *.
    unfold u16le.
    repeat match goal with
           | |- context [u8 ?b] =>
               lazymatch goal with
               | _ : 0 <= u8 b <= 255 |- _ => fail
               | _ => pose proof (u8_range b)
               end
           end.
    repeat split; try lia; try apply i16le_range.
Qed.

(** X7. The first four bytes (payload version, encryption flag, salt) have
    no effect: two buffers that differ in them only give the same result. *)
Theorem X7_header_is_ignored (header header' rest : list byte) :
  length header = 4%nat -> length header' = 4%nat ->
  parse_mikrotik_data (header ++ rest) = parse_mikrotik_data (header' ++ rest).
Proof.
  intros H H'.
  do 4 (destruct header as [|? header]; [discriminate H|]).
  destruct header; [|discriminate H].
  do 4 (destruct header' as [|? header']; [discriminate H'|]).
  destruct header'; [|discriminate H'].
  destruct (Nat.eq_dec (length rest) 14%nat) as [Hr|Hr].
  - do 14 (destruct rest as [|? rest]; [discriminate Hr|]).
    destruct rest; [|discriminate Hr]. reflexivity.
  - rewrite !parse_not_18 by (rewrite length_app; simpl; lia).
    rewrite !length_app. reflexivity.
Qed.

Lemma X7_header_is_ignored_witness :
  parse_mikrotik_data ([x01; x01; xab; xcd] ++ skipn 4 payload_tilt_50)
  = parse_mikrotik_data ([x00; x00; x00; x00] ++ skipn 4 payload_tilt_50).
Proof.
  apply (X7_header_is_ignored [x01; x01; xab; xcd] [x00; x00; x00; x00]);
    reflexivity.
Defined.

Lemma attributes_not_empty (u : unpacked) : attributes u <> ∅.
Proof.
  intros E. pose proof (attributes_battery u) as H.
  rewrite E, lookup_empty in H. discriminate H.
Qed.

(** X8. The returned dict is empty exactly when the buffer does not have 18
    bytes, and an error is logged exactly then. *)
Theorem X8_empty_dict_means_wrong_length (data : list byte) :
  (returned (parse_mikrotik_data data) = ∅ <-> length data <> 18%nat)
  /\ (errors (parse_mikrotik_data data) = [] <-> length data = 18%nat).
Proof.
  destruct (Nat.eq_dec (length data) 18%nat) as [Hlen|Hlen].
  - destruct (parse_18 data Hlen) as (u & _ & ->). cbn [returned errors].
    split; split; intros H; try reflexivity; try exact Hlen.
    + destruct (attributes_not_empty u H).
    + contradiction.
  - rewrite (parse_not_18 data Hlen). cbn [returned errors].
    split; split; intros H; try reflexivity; try exact Hlen; try discriminate H.
    contradiction.
Qed.

(** ** The norm of one axis *)

Lemma single_axis_checks_all (k : Z) :
  0 <= k <= 4096 -> single_axis_checks k = true.
Proof.
  intros Hk.
  apply (holds_from_spec single_axis_checks (Z.to_nat 4097) 0).
  - vm_compute. reflexivity.
  - rewrite Z2Nat.id; lia.
Qed.

(** X9. When two axes are 0.0 the total acceleration is the third axis,
    exactly. *)
Theorem X9_total_of_a_single_axis (value : Z) :
  let x := convert_acceleration value in
  calculate_total_acceleration (Some x) (Some 0%float) (Some 0%float) = Some x
  /\ calculate_total_acceleration (Some 0%float) (Some x) (Some 0%float) = Some x
  /\ calculate_total_acceleration (Some 0%float) (Some 0%float) (Some x) = Some x.
Proof.
  intros x.
  assert (Hx : exists k, 0 <= k <= 4096
                         /\ x = PrimFloat.div (float_of_Z k) 256%float).
  { pose proof (convert_acceleration_unsigned value) as H. cbv zeta in H.
    pose proof (swap_octets_range value) as Hr.
    destruct (Z.leb_spec (swap_octets value) 4096).
    - exists (swap_octets value). split; [lia|apply H].
    - exists 0. split; [lia|]. unfold x. rewrite H. reflexivity. }
  destruct Hx as (k & Hk & ->).
  pose proof (single_axis_checks_all k Hk) as H.
  unfold single_axis_checks in H. cbv zeta in H.
  apply andb_prop in H as [H H3]. apply andb_prop in H as [H1 H2].
  apply Leibniz.eqb_spec in H1, H2, H3.
  unfold calculate_total_acceleration. rewrite H1, H2, H3. repeat split.
Qed.

(** ** The uptime string *)

Lemma pretty_N_char_numeric (x : N) : numeric_char (pretty_N_char x) = true.
Proof. unfold pretty_N_char. repeat case_match; reflexivity. Qed.

Lemma pretty_N_go_numeric (x : N) :
  forall s, PyStr.all_chars numeric_char s = true ->
            PyStr.all_chars numeric_char (pretty_N_go x s) = true.
Proof.
  induction (N.lt_wf_0 x) as [x _ IH]. intros s Hs.
  destruct (N.eq_dec x 0%N) as [->|Hx].
  - rewrite pretty_N_go_0. exact Hs.
  - rewrite pretty_N_go_step by lia. apply IH.
    + apply N.div_lt; lia.
    + simpl. rewrite pretty_N_char_numeric. exact Hs.
Qed.

Lemma pretty_N_numeric (x : N) : PyStr.all_chars numeric_char (pretty x) = true.
Proof.
  unfold pretty, pretty_N. case_decide; [reflexivity|].
  apply pretty_N_go_numeric. reflexivity.
Qed.

Lemma pretty_Z_numeric (z : Z) : PyStr.all_chars numeric_char (pretty z) = true.
Proof.
  unfold pretty, pretty_Z. destruct z; simpl.
  - reflexivity.
  - apply pretty_N_numeric.
  - apply pretty_N_numeric.
Qed.

Lemma split_at_separator (c : ascii) :
  numeric_char c = false ->
  forall a a' r r',
    PyStr.all_chars numeric_char a = true ->
    PyStr.all_chars numeric_char a' = true ->
    a +:+ String c r = a' +:+ String c r' -> a = a' /\ r = r'.
Proof.
  intros Hc. induction a as [|x a IH]; intros [|y a'] r r' Ha Ha' E; simpl in *.
  - injection E as ->. split; reflexivity.
  - injection E as <- _. apply andb_prop in Ha' as [Hy _]. congruence.
  - injection E as -> _. apply andb_prop in Ha as [Hx _]. congruence.
  - injection E as -> E. apply andb_prop in Ha as [_ Ha].
    apply andb_prop in Ha' as [_ Ha'].
    destruct (IH a' r r' Ha Ha' E) as [-> ->]. split; reflexivity.
Qed.

Lemma uptime_parts_sum (s : Z) :
  let '(d, h, m, sec) := uptime_parts s in
  d * 86400 + h * 3600 + m * 60 + sec = s.
Proof.
  unfold uptime_parts. cbv zeta. change (24 * 3600) with 86400.
  Z.div_mod_to_equations. lia.
Qed.

(** X10. Two different uptimes are never formatted to the same string. *)
Theorem X10_uptime_string_tells_the_uptime (s s' : Z) :
  s <> s' -> convert_uptime s <> convert_uptime s'.
Proof.
  intros Hne E. apply Hne.
  pose proof (uptime_parts_sum s) as Hs. pose proof (uptime_parts_sum s') as Hs'.
  unfold convert_uptime in E.
  destruct (uptime_parts s) as [[[d h] m] sec].
  destruct (uptime_parts s') as [[[d' h'] m'] sec'].
  apply (split_at_separator "d" eq_refl) in E as [Ed E];
    [|apply pretty_Z_numeric..].
  injection E as E.
  apply (split_at_separator "h" eq_refl) in E as [Eh E];
    [|apply pretty_Z_numeric..].
  injection E as E.
  apply (split_at_separator "m" eq_refl) in E as [Em E];
    [|apply pretty_Z_numeric..].
  injection E as E.
  apply (split_at_separator "s" eq_refl) in E as [Es _];
    [|apply pretty_Z_numeric..].
  apply (inj pretty) in Ed, Eh, Em, Es. subst. lia.
Qed.

Lemma X10_uptime_string_tells_the_uptime_witness :
  59 <> 60 /\ convert_uptime 59 <> convert_uptime 60.
Proof.
  split; [lia|]. apply (X10_uptime_string_tells_the_uptime 59 60). lia.
Defined.

(** * The entities and the scanner callback *)

(** ** The entities of a tag *)

Lemma setup_attributes (DOMAIN name mac : string) :
  List.map _attribute (async_setup_entry DOMAIN name mac) = sensor_attributes.
Proof. reflexivity. Qed.


(** X11. Fourteen entities are created; the keys of a decoded dict are their
    attributes other than "rssi". *)
Theorem X11_decoded_keys_are_the_entities (DOMAIN name mac : string) (u : unpacked) :
  dom (attributes u)
  = list_to_set (List.map _attribute (async_setup_entry DOMAIN name mac))
      ∖ {["rssi"]}
  /\ length (async_setup_entry DOMAIN name mac) = 14%nat.
Proof.
  split; [|reflexivity].
  rewrite attributes_dom, setup_attributes. unfold sensor_attributes.
  apply set_eq. intros x. set_solver.
Qed.

Lemma append_cancel (p a b : string) : p +:+ a = p +:+ b -> a = b.
Proof. induction p as [|c p IH]; simpl; [auto|]. intros [= E]. auto. Qed.

(** X12. The entities of a tag have pairwise different unique ids and
    names; all carry the MAC of the tag, the same device identifier and no
    state. *)
Theorem X12_entities_are_told_apart (DOMAIN name mac : string) :
  NoDup (List.map _unique_id (async_setup_entry DOMAIN name mac))
  /\ NoDup (List.map _name (async_setup_entry DOMAIN name mac))
  /\ Forall (fun self => _mac self = mac /\ _state self = PyNone
                         /\ identifiers (_device_info self) = [(DOMAIN, mac)])
       (async_setup_entry DOMAIN name mac).
Proof.
  split; [|split].
  - change (List.map _unique_id (async_setup_entry DOMAIN name mac))
      with (List.map (fun a => mac +:+ ("_" +:+ a)) sensor_attributes).
    apply NoDup_fmap_2.
    + intros a b E. apply append_cancel in E. injection E as E. exact E.
    + apply (bool_decide_unpack _). vm_compute. reflexivity.
  - change (List.map _name (async_setup_entry DOMAIN name mac))
      with (List.map (fun a => name +:+ (" " +:+ a))
              (List.map (fun a => PyStr.title (PyStr.replace "_" " " a))
                 sensor_attributes)).
    apply NoDup_fmap_2.
    + intros a b E. apply append_cancel in E. injection E as E. exact E.
    + apply (bool_decide_unpack _). vm_compute. reflexivity.
  - unfold async_setup_entry. repeat constructor.
Qed.

(** ** Processing an advertisement *)

Lemma process_items_skips (self : MikroTikBLETagSensor) (rssi : Z)
    (items : list (Z * list byte)) :
  Forall (fun item => fst item <> 0x094F) items ->
  process_items self rssi items
  = {| entity := self; written := []; logged := [] |}.
Proof.
  induction 1 as [|[id data] items Hid _ IH]; [reflexivity|].
  simpl in *. destruct (Z.eqb_spec id 0x094F); [contradiction|exact IH].
Qed.

(** X13. An advertisement without data of manufacturer 0x094F changes
    nothing: the state stays, nothing is written or logged. *)
Theorem X13_other_manufacturers_are_ignored
    (self : MikroTikBLETagSensor) (device : BLEDevice)
    (advertisement_data : AdvertisementData) :
  Forall (fun item => fst item <> 0x094F) (manufacturer_data advertisement_data) ->
  _process_advertisement_data self device advertisement_data
  = {| entity := self; written := []; logged := [] |}.
Proof. apply process_items_skips. Qed.

Lemma X13_other_manufacturers_are_ignored_witness :
  _process_advertisement_data sample_entity sample_device
    {| manufacturer_data := [(0x004C, [x02; x15])]; rssi := -60 |}
  = {| entity := sample_entity; written := []; logged := [] |}.
Proof.
  apply X13_other_manufacturers_are_ignored.
  repeat constructor. discriminate.
Defined.

Lemma process_items_lookup (self : MikroTikBLETagSensor) (rssi : Z)
    (items : list (Z * list byte)) (data : list byte) :
  NoDup (List.map fst items) -> In (0x094F, data) items ->
  process_items self rssi items = process_items self rssi [(0x094F, data)].
Proof.
  induction items as [|[id d] items IH]; intros Hnd Hin; [destruct Hin|].
  simpl in Hnd. apply NoDup_cons in Hnd as [Hfresh Hnd].
  destruct Hin as [[= -> ->]|Hin]; [reflexivity|].
  cbn [process_items]. destruct (Z.eqb_spec id 0x094F) as [->|Hne].
  - exfalso. apply Hfresh. apply list_elem_of_In.
    apply (in_map fst) in Hin. exact Hin.
  - rewrite (IH Hnd Hin). reflexivity.
Qed.

(** X14. Whatever else the advertisement carries and in whatever order, the
    data under 0x094F decides: the state becomes the RSSI for the "rssi"
    entity and the decoded attribute (None when missing) for the others,
    whatever it was, and is written once. *)
Theorem X14_only_the_mikrotik_entry_counts
    (self : MikroTikBLETagSensor) (device : BLEDevice)
    (advertisement_data : AdvertisementData) (data : list byte) :
  NoDup (List.map fst (manufacturer_data advertisement_data)) ->
  In (0x094F, data) (manufacturer_data advertisement_data) ->
  let state :=
    if String.eqb (_attribute self) "rssi"
    then PyInt (rssi advertisement_data)
    else dict_get (returned (parse_mikrotik_data data)) (_attribute self) in
  _process_advertisement_data self device advertisement_data
  = {| entity := with_state self state;
       written := [state];
       logged := errors (parse_mikrotik_data data) |}.
Proof.
  intros Hnd Hin state. unfold _process_advertisement_data.
  rewrite (process_items_lookup self _ _ data Hnd Hin).
  cbn [process_items]. reflexivity.
Qed.

Lemma X14_only_the_mikrotik_entry_counts_witness :
  _process_advertisement_data sample_entity sample_device
    (sample_advertisement payload_tilt_50)
  = {| entity := with_state sample_entity (PyInt 50);
       written := [PyInt 50];
       logged := [] |}.
Proof.
  apply (X14_only_the_mikrotik_entry_counts sample_entity sample_device
           (sample_advertisement payload_tilt_50) payload_tilt_50).
  - apply (bool_decide_unpack _). vm_compute. reflexivity.
  - simpl. right. left. reflexivity.
Defined.

(** X15. A MikroTik payload of the wrong length sets the state of every
    entity but "rssi" to None, writes it, and logs the length error. *)
Theorem X15_wrong_length_clears_the_state
    (self : MikroTikBLETagSensor) (device : BLEDevice)
    (advertisement_data : AdvertisementData) (data : list byte) :
  NoDup (List.map fst (manufacturer_data advertisement_data)) ->
  In (0x094F, data) (manufacturer_data advertisement_data) ->
  length data <> 18%nat ->
  _attribute self <> "rssi" ->
  _process_advertisement_data self device advertisement_data
  = {| entity := with_state self PyNone;
       written := [PyNone];
       logged := ["Invalid data length: expected 18 bytes, got "
                    +:+ pretty (Z.of_nat (length data)) +:+ " bytes"] |}.
Proof.
  intros Hnd Hin Hlen Hattr. unfold _process_advertisement_data.
  rewrite (process_items_lookup self _ _ data Hnd Hin).
  cbn [process_items]. change (0x094F =? 0x094F) with true. cbv iota.
  rewrite (parse_not_18 data Hlen). cbn [returned errors].
  apply String.eqb_neq in Hattr. rewrite Hattr.
  unfold dict_get. rewrite lookup_empty. reflexivity.
Qed.

Lemma X15_wrong_length_clears_the_state_witness :
  _process_advertisement_data (with_state sample_entity (PyInt 50)) sample_device
    (sample_advertisement [x00; x01; x02])
  = {| entity := with_state (with_state sample_entity (PyInt 50)) PyNone;
       written := [PyNone];
       logged := ["Invalid data length: expected 18 bytes, got 3 bytes"] |}.
Proof.
  apply (X15_wrong_length_clears_the_state (with_state sample_entity (PyInt 50))
           sample_device (sample_advertisement [x00; x01; x02]) [x00; x01; x02]).
  - apply (bool_decide_unpack _). vm_compute. reflexivity.
  - simpl. right. left. reflexivity.
  - simpl. discriminate.
  - simpl. discriminate.
Defined.

(** X16. The "rssi" entity takes the RSSI of the advertisement whenever it
    carries MikroTik data, even data that cannot be decoded. *)
Theorem X16_rssi_comes_from_the_advertisement
    (self : MikroTikBLETagSensor) (device : BLEDevice)
    (advertisement_data : AdvertisementData) (data : list byte) :
  NoDup (List.map fst (manufacturer_data advertisement_data)) ->
  In (0x094F, data) (manufacturer_data advertisement_data) ->
  _attribute self = "rssi" ->
  let result := _process_advertisement_data self device advertisement_data in
  _state (entity result) = PyInt (rssi advertisement_data)
  /\ written result = [PyInt (rssi advertisement_data)]
  /\ logged result = errors (parse_mikrotik_data data).
Proof.
  intros Hnd Hin Hattr result. subst result.
  unfold _process_advertisement_data.
  rewrite (process_items_lookup self _ _ data Hnd Hin).
  cbn [process_items]. change (0x094F =? 0x094F) with true. cbv iota.
  rewrite Hattr. repeat split.
Qed.

Lemma X16_rssi_comes_from_the_advertisement_witness :
  let result :=
    _process_advertisement_data sample_rssi_entity sample_device
      (sample_advertisement [x00; x01; x02]) in
  _state (entity result) = PyInt (-60)
  /\ written result = [PyInt (-60)]
  /\ logged result = errors (parse_mikrotik_data [x00; x01; x02]).
Proof.
  apply (X16_rssi_comes_from_the_advertisement sample_rssi_entity sample_device
           (sample_advertisement [x00; x01; x02]) [x00; x01; x02]).
  - apply (bool_decide_unpack _). vm_compute. reflexivity.
  - simpl. right. left. reflexivity.
  - reflexivity.
Defined.



(** ** Matching the address *)

Lemma in_all_ascii_chars (c : ascii) : In c all_ascii_chars.
Proof.
  unfold all_ascii_chars. apply in_map_iff.
  exists (nat_of_ascii c). split.
  - unfold nat_of_ascii. rewrite N2Nat.id. apply ascii_N_embedding.
  - apply in_seq. pose proof (nat_ascii_bounded c). lia.
Qed.

Ltac for_all_chars c :=
  revert c;
  match goal with
  | |- forall c : ascii, @?P c = true =>
      intros c;
      apply (proj1 (forallb_forall P all_ascii_chars)); [|apply in_all_ascii_chars];
      vm_compute; reflexivity
  end.

Lemma char_lower_same_letter (c d : ascii) :
  Ascii.eqb (PyStr.char_lower c) (PyStr.char_lower d) = char_same_letter c d.
Proof.
  apply eqb_prop.
  apply (proj1 (forallb_forall
                  (fun d => Bool.eqb (Ascii.eqb (PyStr.char_lower c) (PyStr.char_lower d))
                              (char_same_letter c d)) all_ascii_chars));
    [|apply in_all_ascii_chars].
  apply (proj1 (forallb_forall
                  (fun c => forallb
                     (fun d => Bool.eqb
                                 (Ascii.eqb (PyStr.char_lower c) (PyStr.char_lower d))
                                 (char_same_letter c d)) all_ascii_chars)
                  all_ascii_chars));
    [|apply in_all_ascii_chars].
  vm_compute. reflexivity.
Qed.

Lemma lower_same_ignoring_case (s t : string) :
  String.eqb (PyStr.lower s) (PyStr.lower t) = same_ignoring_case s t.
Proof.
  revert t. induction s as [|c s IH]; intros [|d t]; simpl; try reflexivity.
  rewrite char_lower_same_letter, IH. reflexivity.
Qed.

(** X18. The callback processes an advertisement exactly when the address of
    the device and the configured MAC have the same length and agree up to
    the case of letters; otherwise the entity is left alone. *)
Theorem X18_mac_is_matched_ignoring_case
    (self : MikroTikBLETagSensor) (device : BLEDevice)
    (advertisement_data : AdvertisementData) :
  PyStr.is_ascii (address device) = true ->
  PyStr.is_ascii (_mac self) = true ->
  detection_callback self device advertisement_data
  = if same_ignoring_case (address device) (_mac self)
    then _process_advertisement_data self device advertisement_data
    else {| entity := self; written := []; logged := [] |}.
Proof.
  intros _ _. unfold detection_callback.
  rewrite lower_same_ignoring_case. reflexivity.
Qed.

Lemma X18_mac_is_matched_ignoring_case_witness :
  detection_callback sample_entity sample_device
    (sample_advertisement payload_tilt_50)
  = _process_advertisement_data sample_entity sample_device
      (sample_advertisement payload_tilt_50).
Proof.
  apply (X18_mac_is_matched_ignoring_case sample_entity sample_device
           (sample_advertisement payload_tilt_50)); reflexivity.
Defined.

(** * The config flow *)

Lemma char_upper_isalnum (c : ascii) :
  Bool.eqb (PyStr.char_isalnum (PyStr.char_upper c)) (PyStr.char_isalnum c) = true.
Proof. for_all_chars c. Qed.

Lemma char_upper_shape (c : ascii) :
  implb (PyStr.char_isalnum c) (char_is_upper_or_digit (PyStr.char_upper c)) = true.
Proof. for_all_chars c. Qed.

Lemma char_upper_not_colon (c : ascii) :
  Bool.eqb (Ascii.eqb (PyStr.char_upper c) ":") (Ascii.eqb c ":") = true.
Proof. for_all_chars c. Qed.

Lemma char_lower_not_colon (c : ascii) :
  Bool.eqb (Ascii.eqb (PyStr.char_lower c) ":") (Ascii.eqb c ":") = true.
Proof. for_all_chars c. Qed.

Lemma char_upper_idempotent (c : ascii) :
  Ascii.eqb (PyStr.char_upper (PyStr.char_upper c)) (PyStr.char_upper c) = true.
Proof. for_all_chars c. Qed.

Lemma replace_colons (s : string) :
  PyStr.replace ":" "" s = string_of_list_ascii (mac_characters s).
Proof.
  induction s as [|c s IH]; [reflexivity|]. simpl.
  destruct (Ascii.eqb c ":"); simpl; rewrite IH; reflexivity.
Qed.

Lemma upper_of_list (l : list ascii) :
  PyStr.upper (string_of_list_ascii l)
  = string_of_list_ascii (List.map PyStr.char_upper l).
Proof.
  unfold PyStr.upper. induction l as [|c l IH]; [reflexivity|].
  simpl. f_equal. exact IH.
Qed.

Lemma length_of_list (l : list ascii) :
  String.length (string_of_list_ascii l) = length l.
Proof. induction l as [|c l IH]; [reflexivity|]. simpl. f_equal. exact IH. Qed.

Lemma all_chars_of_list (p : ascii -> bool) (l : list ascii) :
  PyStr.all_chars p (string_of_list_ascii l) = forallb p l.
Proof. induction l as [|c l IH]; [reflexivity|]. simpl. rewrite IH. reflexivity. Qed.

Lemma isalnum_of_list (l : list ascii) :
  l <> [] -> PyStr.isalnum (string_of_list_ascii l) = forallb PyStr.char_isalnum l.
Proof.
  destruct l as [|c l]; [congruence|]. intros _.
  unfold PyStr.isalnum. cbn [string_of_list_ascii].
  apply (all_chars_of_list PyStr.char_isalnum (c :: l)).
Qed.

Lemma forallb_alnum_upper (l : list ascii) :
  forallb PyStr.char_isalnum (List.map PyStr.char_upper l)
  = forallb PyStr.char_isalnum l.
Proof.
  induction l as [|c l IH]; [reflexivity|]. simpl.
  rewrite IH, (eqb_prop _ _ (char_upper_isalnum c)). reflexivity.
Qed.

Lemma step_user_by_chars (configured : string -> bool) (ui : user_input) :
  let chars := mac_characters (input_mac ui) in
  let unique_id := string_of_list_ascii (List.map PyStr.char_upper chars) in
  async_step_user configured (Some ui)
  = if (Nat.eqb (length chars) 12) && forallb PyStr.char_isalnum chars
    then if configured unique_id
         then Abort "already_configured"
         else CreateEntry (input_name ui) ui unique_id
    else ShowForm "user" (<["mac" := "invalid_mac"]> ∅).
Proof.
  intros chars unique_id. unfold async_step_user.
  rewrite replace_colons, upper_of_list. fold chars. fold unique_id.
  unfold unique_id at 1 2. rewrite length_of_list, length_map.
  destruct (Nat.eqb_spec (length chars) 12) as [H12|H12].
  - rewrite H12. change (Z.of_nat 12 =? 12) with true. cbn [negb orb andb].
    rewrite isalnum_of_list, forallb_alnum_upper
      by (destruct chars; [discriminate H12|discriminate]).
    destruct (forallb PyStr.char_isalnum chars); reflexivity.
  - replace (Z.of_nat (length chars) =? 12) with false
      by (symmetry; apply Z.eqb_neq; lia).
    reflexivity.
Qed.

(** X19. The config flow accepts a MAC exactly when it has twelve characters
    besides colons, all letters or digits: colons may stand anywhere and
    letters need not be hexadecimal.  The unique id is these characters in
    upper case; the entry keeps the input as typed. *)
Theorem X19_mac_is_twelve_alphanumerics
    (configured : string -> bool) (ui : user_input) :
  PyStr.is_ascii (input_mac ui) = true ->
  let chars := mac_characters (input_mac ui) in
  let unique_id := string_of_list_ascii (List.map PyStr.char_upper chars) in
  async_step_user configured (Some ui)
  = if (Nat.eqb (length chars) 12) && forallb PyStr.char_isalnum chars
    then if configured unique_id
         then Abort "already_configured"
         else CreateEntry (input_name ui) ui unique_id
    else ShowForm "user" (<["mac" := "invalid_mac"]> ∅).
Proof. intros _. apply step_user_by_chars. Qed.

Lemma X19_mac_is_twelve_alphanumerics_witness :
  async_step_user (fun _ => false) (Some input_with_colons)
  = CreateEntry "Tag" input_with_colons "AABBCCDDEEFF".
Proof.
  apply (X19_mac_is_twelve_alphanumerics (fun _ => false) input_with_colons).
  reflexivity.
Defined.

Lemma step_user_created (configured : string -> bool) (ui : user_input)
    (t : string) (d : user_input) (uid : string) :
  async_step_user configured (Some ui) = CreateEntry t d uid ->
  let chars := mac_characters (input_mac ui) in
  length chars = 12%nat
  /\ forallb PyStr.char_isalnum chars = true
  /\ uid = string_of_list_ascii (List.map PyStr.char_upper chars)
  /\ configured uid = false /\ t = input_name ui /\ d = ui.
Proof.
  intros H chars. rewrite step_user_by_chars in H. fold chars in H.
  destruct (Nat.eqb_spec (length chars) 12) as [H12|H12]; [|discriminate H].
  destruct (forallb PyStr.char_isalnum chars) eqn:Hal; [|discriminate H].
  cbn [andb] in H.
  destruct (configured (string_of_list_ascii (List.map PyStr.char_upper chars)))
    eqn:Hc; [discriminate H|].
  injection H as <- <- <-. repeat split; auto.
Qed.

Lemma mac_characters_of_upper (l : list ascii) :
  forallb PyStr.char_isalnum l = true ->
  mac_characters (string_of_list_ascii (List.map PyStr.char_upper l))
  = List.map PyStr.char_upper l.
Proof.
  induction l as [|c l IH]; [reflexivity|]. simpl. intros H.
  apply andb_prop in H as [Hc Hl].
  replace (Ascii.eqb (PyStr.char_upper c) ":") with false; [rewrite IH; auto|].
  symmetry. revert Hc.
  assert (E : implb (PyStr.char_isalnum c)
                (negb (Ascii.eqb (PyStr.char_upper c) ":")) = true)
    by for_all_chars c.
  destruct (PyStr.char_isalnum c); [|discriminate].
  simpl in E. intros _. apply negb_true_iff in E. exact E.
Qed.

Lemma map_upper_idempotent (l : list ascii) :
  List.map PyStr.char_upper (List.map PyStr.char_upper l)
  = List.map PyStr.char_upper l.
Proof.
  induction l as [|c l IH]; [reflexivity|]. simpl. rewrite IH. f_equal.
  apply Ascii.eqb_eq. apply char_upper_idempotent.
Qed.

Lemma forallb_upper_shape (l : list ascii) :
  forallb PyStr.char_isalnum l = true ->
  forallb char_is_upper_or_digit (List.map PyStr.char_upper l) = true.
Proof.
  induction l as [|c l IH]; [reflexivity|]. simpl. intros H.
  apply andb_prop in H as [Hc Hl]. rewrite (IH Hl), andb_true_r.
  pose proof (char_upper_shape c) as E. rewrite Hc in E. exact E.
Qed.

(** X20. When an entry is created its title and data are the input as
    typed, its unique id has twelve upper-case letters or digits and was not
    configured; typing the unique id itself gives the same unique id. *)
Theorem X20_unique_id_is_normalised
    (configured : string -> bool) (ui : user_input)
    (t : string) (d : user_input) (uid : string) :
  PyStr.is_ascii (input_mac ui) = true ->
  async_step_user configured (Some ui) = CreateEntry t d uid ->
  t = input_name ui /\ d = ui
  /\ String.length uid = 12%nat
  /\ PyStr.all_chars char_is_upper_or_digit uid = true
  /\ configured uid = false
  /\ async_step_user configured
       (Some {| input_name := input_name ui; input_mac := uid |})
     = CreateEntry (input_name ui)
         {| input_name := input_name ui; input_mac := uid |} uid.
Proof.
  intros _ H. destruct (step_user_created _ _ _ _ _ H)
    as (H12 & Hal & -> & Hc & -> & ->).
  set (chars := mac_characters (input_mac ui)) in *.
  repeat split.
  - rewrite length_of_list, length_map. exact H12.
  - rewrite all_chars_of_list. apply forallb_upper_shape. exact Hal.
  - exact Hc.
  - rewrite step_user_by_chars. cbn [input_mac input_name].
    rewrite (mac_characters_of_upper chars Hal).
    rewrite length_map, H12, forallb_alnum_upper, Hal, map_upper_idempotent, Hc.
    reflexivity.
Qed.

Lemma X20_unique_id_is_normalised_witness :
  "Tag" = input_name input_with_colons
  /\ input_with_colons = input_with_colons
  /\ String.length "AABBCCDDEEFF" = 12%nat
  /\ PyStr.all_chars char_is_upper_or_digit "AABBCCDDEEFF" = true
  /\ (fun _ : string => false) "AABBCCDDEEFF" = false
  /\ async_step_user (fun _ => false)
       (Some {| input_name := input_name input_with_colons;
                input_mac := "AABBCCDDEEFF" |})
     = CreateEntry (input_name input_with_colons)
         {| input_name := input_name input_with_colons;
            input_mac := "AABBCCDDEEFF" |} "AABBCCDDEEFF".
Proof.
  apply (X20_unique_id_is_normalised (fun _ => false) input_with_colons
           "Tag" input_with_colons "AABBCCDDEEFF"); reflexivity.
Defined.

Lemma char_same_letter_upper (c d : ascii) :
  char_same_letter c d = true -> PyStr.char_upper c = PyStr.char_upper d.
Proof.
  intros H. apply Ascii.eqb_eq.
  assert (E : implb (char_same_letter c d)
                (Ascii.eqb (PyStr.char_upper c) (PyStr.char_upper d)) = true).
  { clear H.
    apply (proj1 (forallb_forall
             (fun d => implb (char_same_letter c d)
                         (Ascii.eqb (PyStr.char_upper c) (PyStr.char_upper d)))
             all_ascii_chars)); [|apply in_all_ascii_chars].
    apply (proj1 (forallb_forall
             (fun c => forallb
                (fun d => implb (char_same_letter c d)
                            (Ascii.eqb (PyStr.char_upper c) (PyStr.char_upper d)))
                all_ascii_chars)
             all_ascii_chars)); [|apply in_all_ascii_chars].
    vm_compute. reflexivity. }
  rewrite H in E. exact E.
Qed.

Lemma same_letters_upper (l l' : list ascii) :
  same_letters l l' = true ->
  List.map PyStr.char_upper l = List.map PyStr.char_upper l'.
Proof.
  revert l'. induction l as [|c l IH]; intros [|d l'] H; simpl in *;
    try discriminate; [reflexivity|].
  apply andb_prop in H as [Hc Hl].
  rewrite (char_same_letter_upper c d Hc), (IH l' Hl). reflexivity.
Qed.

(** X21. Once an entry is created, an input whose MAC differs only by colons
    and case is aborted as already configured. *)
Theorem X21_same_tag_is_not_added_twice
    (configured : string -> bool) (ui ui' : user_input)
    (t : string) (d : user_input) (uid : string) :
  PyStr.is_ascii (input_mac ui) = true ->
  PyStr.is_ascii (input_mac ui') = true ->
  same_letters (mac_characters (input_mac ui)) (mac_characters (input_mac ui'))
  = true ->
  async_step_user configured (Some ui) = CreateEntry t d uid ->
  async_step_user (fun id => configured id || String.eqb id uid) (Some ui')
  = Abort "already_configured".
Proof.
  intros _ _ Hsame H.
  destruct (step_user_created _ _ _ _ _ H) as (H12 & Hal & -> & _).
  apply same_letters_upper in Hsame.
  rewrite step_user_by_chars. cbv zeta.
  assert (Hlen : length (mac_characters (input_mac ui')) = 12%nat).
  { rewrite <- H12, <- (length_map PyStr.char_upper), <- Hsame, length_map.
    reflexivity. }
  assert (Hal' : forallb PyStr.char_isalnum (mac_characters (input_mac ui')) = true).
  { rewrite <- forallb_alnum_upper, <- Hsame, forallb_alnum_upper. exact Hal. }
  rewrite Hlen, Hal', <- Hsame, String.eqb_refl, orb_true_r. reflexivity.
Qed.

Lemma X21_same_tag_is_not_added_twice_witness :
  async_step_user (fun id => false || String.eqb id "AABBCCDDEEFF")
    (Some input_without_colons)
  = Abort "already_configured".
Proof.
  apply (X21_same_tag_is_not_added_twice (fun _ => false) input_with_colons
           input_without_colons "Tag" input_with_colons "AABBCCDDEEFF");
    reflexivity.
Defined.

Lemma count_colons_lower (s : string) :
  count_char ":" (PyStr.lower s) = count_char ":" s.
Proof.
  unfold PyStr.lower. induction s as [|c s IH]; [reflexivity|]. simpl.
  rewrite (eqb_prop _ _ (char_lower_not_colon c)), IH. reflexivity.
Qed.

Lemma detection_needs_same_colons (self : MikroTikBLETagSensor)
    (device : BLEDevice) (advertisement_data : AdvertisementData) :
  count_char ":" (address device) <> count_char ":" (_mac self) ->
  detection_callback self device advertisement_data
  = {| entity := self; written := []; logged := [] |}.
Proof.
  intros Hne. unfold detection_callback.
  destruct (String.eqb_spec (PyStr.lower (address device)) (PyStr.lower (_mac self)))
    as [E|_]; [|reflexivity].
  exfalso. apply Hne.
  rewrite <- (count_colons_lower (address device)), E. apply count_colons_lower.
Qed.

(** X22. The entities are created with the MAC as typed; when it does not
    have as many colons as the address the scanner reports, the callback never
    processes an advertisement of that device. *)
Theorem X22_mac_typed_without_colons_never_matches
    (configured : string -> bool) (ui : user_input)
    (t : string) (d : user_input) (uid DOMAIN : string)
    (self : MikroTikBLETagSensor) (device : BLEDevice)
    (advertisement_data : AdvertisementData) :
  PyStr.is_ascii (input_mac ui) = true ->
  PyStr.is_ascii (address device) = true ->
  async_step_user configured (Some ui) = CreateEntry t d uid ->
  In self (async_setup_entry DOMAIN (input_name d) (input_mac d)) ->
  count_char ":" (input_mac ui) <> count_char ":" (address device) ->
  detection_callback self device advertisement_data
  = {| entity := self; written := []; logged := [] |}.
Proof.
  intros _ _ H Hself Hne.
  destruct (step_user_created _ _ _ _ _ H) as (_ & _ & _ & _ & _ & ->).
  apply detection_needs_same_colons.
  assert (Hmac : _mac self = input_mac ui).
  { unfold async_setup_entry in Hself. simpl in Hself.
    repeat (destruct Hself as [<-|Hself]; [reflexivity|]). destruct Hself. }
  rewrite Hmac. auto.
Qed.

Lemma X22_mac_typed_without_colons_never_matches_witness :
  detection_callback
    (__init__ "Tag" "AABBCCDDEEFF" "battery" (Some BATTERY) (Some PERCENTAGE)
       {| identifiers := [("mikrotik_ble_tag", "AABBCCDDEEFF")];
          device_name := "Tag"; manufacturer := "MikroTik"; model := "BLE Tag" |})
    {| address := "AA:BB:CC:DD:EE:FF" |}
    (sample_advertisement payload_tilt_50)
  = {| entity :=
         __init__ "Tag" "AABBCCDDEEFF" "battery" (Some BATTERY) (Some PERCENTAGE)
           {| identifiers := [("mikrotik_ble_tag", "AABBCCDDEEFF")];
              device_name := "Tag"; manufacturer := "MikroTik";
              model := "BLE Tag" |};
       written := []; logged := [] |}.
Proof.
  apply (X22_mac_typed_without_colons_never_matches (fun _ => false)
           input_without_colons "Tag" input_without_colons "AABBCCDDEEFF"
           "mikrotik_ble_tag").
  - reflexivity.
  - reflexivity.
  - reflexivity.
  - simpl. right. left. reflexivity.
  - simpl. discriminate.
Defined.
